(** * utils/push_to_hub.py: evaluate a trained agent, build its model card
      and push everything to the hub.

    The script is sequential glue code.  Its own logic (string templates,
    flag resolution, dictionary updates, the order of the calls and the
    guards around file deletion) is embedded below: pure code as functions,
    the pipeline as a computation in a state-and-exception monad over a
    [World] holding the file system, the evaluation environment object and
    the log of the calls issued so far.  Library functions the script only
    calls ([pformat], [yaml.dump], the hub client, Stable-Baselines3, ...)
    are parameters of the development, gathered in the record [Lib]. *)

From Stdlib Require Import String Ascii List ZArith Bool Floats Lia.
From stdpp Require Import base option gmap strings pretty list fin_maps.

Open Scope string_scope.
Set Warnings "-register-all".

(** ** Python strings *)

Module PyStr.

(** The newline character of the triple-quoted templates. *)
Definition nl : string := String "010"%char "".

(** [s.startswith(p)] *)
Fixpoint startswith (p s : string) : bool :=
  match p, s with
  | "", _ => true
  | String _ _, "" => false
  | String a p', String b s' => Ascii.eqb a b && startswith p' s'
  end.

Arguments startswith !_ !_ / : simpl nomatch.

(** [needle in hay] *)
Fixpoint contains (needle hay : string) : bool :=
  startswith needle hay ||
  match hay with
  | "" => false
  | String _ hay' => contains needle hay'
  end.

(** [s.replace(old, new)] for one-character [old] and [new], the only
    way the script calls it: every occurrence is replaced. *)
Fixpoint replace (old new : ascii) (s : string) : string :=
  match s with
  | "" => ""
  | String c s' =>
      String (if Ascii.eqb c old then new else c) (replace old new s')
  end.

(** [s.split(sep)] for a one-character separator: the list of the
    maximal pieces between separators, [""] for the empty string. *)
Fixpoint split (sep : ascii) (s : string) : list string :=
  match s with
  | "" => [""]
  | String c s' =>
      match split sep s' with
      | [] => [""]
      | piece :: pieces =>
          if Ascii.eqb c sep then "" :: piece :: pieces
          else String c piece :: pieces
      end
  end.

(** Tail of a string after its first [n] characters, [s[n:]]. *)
Fixpoint drop (n : nat) (s : string) : string :=
  match n, s with
  | O, _ => s
  | S _, "" => ""
  | S n', String _ s' => drop n' s'
  end.

(** Head of a string, [s[:n]]. *)
Fixpoint take (n : nat) (s : string) : string :=
  match n, s with
  | O, _ => ""
  | S _, "" => ""
  | S n', String c s' => String c (take n' s')
  end.

(** [s.endswith(p)] *)
Definition endswith (p s : string) : bool :=
  Nat.leb (String.length p) (String.length s) &&
  String.eqb (drop (String.length s - String.length p) s) p.

End PyStr.

(** ** Python values and exceptions *)

(** Values found in hyperparameter and keyword-argument dictionaries. *)
Inductive PyVal : Type :=
| PyNone
| PyBool (b : bool)
| PyInt (z : Z)
| PyFloat (f : float)
| PyStr (s : string)
| PyList (l : list PyVal).

(** [Dict[str, Any]] *)
Abbreviation Dict := (gmap string PyVal).

Inductive exn : Type :=
| ValueError
| KeyError
| TypeError
| FileNotFoundError
| IsADirectoryError.

Inductive result (A : Type) : Type :=
| Ok (a : A)
| Raise (e : exn).
Arguments Ok {A} a.
Arguments Raise {A} e.

(** ** YAML documents *)

(** What [yaml.load] makes of the text of an [args.yml].  The training
    script writes the parsed command line there, a mapping in which
    [env_kwargs] holds a mapping or [None]: [YamlMapping] is a document of
    that shape.  Any other document (an empty file loads as [None], a scalar
    or a sequence as themselves) is [YamlNotMapping].  Values that are
    neither a mapping nor [None] are outside this type. *)
Inductive YamlDoc : Type :=
| YamlMapping (items : gmap string (option Dict))
| YamlNotMapping.

(** [doc !! key]: what a mapping document stores under [key]. *)
#[global] Instance YamlDoc_lookup : Lookup string (option Dict) YamlDoc :=
  fun key doc =>
    match doc with
    | YamlMapping items => items !! key
    | YamlNotMapping => None
    end.

(** ** Metadata of a model card *)

Inductive MetaVal : Type :=
| MetaStr (s : string)
| MetaFloat (f : float)
| MetaTags (tags : list string).

Abbreviation Metadata := (gmap string MetaVal).

(** Modelled from the spec: [generate_metadata] of [huggingface_sb3] is
    not part of this repository's sources.  The spec describes its result as
    the metadata block "(algorithm, environment, reward stats, tags)" that
    "always contains the supplied mean and std reward values unchanged". *)
Definition generate_metadata
    (model_name env_id : string) (mean_reward std_reward : float) : Metadata :=
  <["algorithm" := MetaStr model_name]>
  (<["environment" := MetaStr env_id]>
  (<["mean_reward" := MetaFloat mean_reward]>
  (<["std_reward" := MetaFloat std_reward]>
  (<["tags" := MetaTags [env_id; "reinforcement-learning"]]> ∅)))).

(** ** The model card *)

Section ModelCard.

(** [pprint.pformat], a library function: any rendering of a dictionary. *)
Variable pformat : Dict -> string.

Import PyStr.

(** One line of a template: the text followed by a newline. *)
Definition line (text : string) : string := text +:+ nl.

(** The first f-string of [generate_model_card]: title and introduction. *)
Definition card_header (algo_class_name env_id : string) : string :=
  nl +:+
  "# **" +:+ algo_class_name +:+ "** Agent playing **" +:+ env_id +:+ "**" +:+ nl +:+
  "This is a trained model of a **" +:+ algo_class_name +:+
    "** agent playing **" +:+ env_id +:+ "**" +:+ nl +:+
  line "using the [stable-baselines3 library](https://github.com/DLR-RM/stable-baselines3)" +:+
  line "and the [RL Zoo](https://github.com/DLR-RM/rl-baselines3-zoo)." +:+
  nl +:+
  line "The RL Zoo is a training framework for Stable Baselines3" +:+
  line "reinforcement learning agents," +:+
  line "with hyperparameter optimization and pre-trained agents included.".

(** The second f-string: usage, training and hyperparameters. *)
Definition card_usage
    (algo_name organization env_id : string) (hyperparams : Dict) : string :=
  nl +:+
  line "## Usage (with SB3 RL Zoo)" +:+
  nl +:+
  line "RL Zoo: https://github.com/DLR-RM/rl-baselines3-zoo<br/>" +:+
  line "SB3: https://github.com/DLR-RM/stable-baselines3<br/>" +:+
  line "SB3 Contrib: https://github.com/Stable-Baselines-Team/stable-baselines3-contrib" +:+
  nl +:+
  line "```" +:+
  line "# Download model and save it into the logs/ folder" +:+
  "python -m utils.load_from_hub --algo " +:+ algo_name +:+ " --env " +:+ env_id +:+
    " -orga " +:+ organization +:+ " -f logs/" +:+ nl +:+
  "python enjoy.py --algo " +:+ algo_name +:+ " --env " +:+ env_id +:+
    "  -f logs/" +:+ nl +:+
  line "```" +:+
  nl +:+
  line "## Training (with the RL Zoo)" +:+
  line "```" +:+
  "python train.py --algo " +:+ algo_name +:+ " --env " +:+ env_id +:+
    " -f logs/" +:+ nl +:+
  line "# Upload the model and generate video (when possible)" +:+
  "python -m utils.push_to_hub --algo " +:+ algo_name +:+ " --env " +:+ env_id +:+
    " -f logs/ -orga " +:+ organization +:+ nl +:+
  line "```" +:+
  nl +:+
  line "## Hyperparameters" +:+
  line "```python" +:+
  pformat hyperparams +:+ nl +:+
  line "```".

(** The heading line of the optional last section. *)
Definition env_args_heading : string := "# Environment Arguments".

(** The third f-string, appended when [len(env_kwargs) > 0]. *)
Definition card_env_args (env_kwargs : Dict) : string :=
  nl +:+
  line env_args_heading +:+
  line "```python" +:+
  pformat env_kwargs +:+ nl +:+
  line "```".

Definition generate_model_card
    (algo_name algo_class_name organization env_id : string)
    (mean_reward std_reward : float)
    (hyperparams env_kwargs : Dict) : string * Metadata :=
  (* Step 1: Select the tags *)
  let metadata := generate_metadata algo_class_name env_id mean_reward std_reward in
  (* Step 2: Generate the model card *)
  let model_card := card_header algo_class_name env_id in
  let model_card :=
    model_card +:+ card_usage algo_name organization env_id hyperparams in
  let model_card :=
    if Nat.ltb 0 (size env_kwargs)
    then model_card +:+ card_env_args env_kwargs
    else model_card in
  (model_card, metadata).

(** A text has an "Environment Arguments" section when it has the heading
    on a line of its own. *)
Definition has_env_args_section (text : string) : bool :=
  contains (nl +:+ env_args_heading +:+ nl) text.

End ModelCard.

(** ** Objects the pipeline works on *)

(** A loaded model, described by what it was loaded from
    ([ALGOS[algo].load(model_path, env=..., device=..., **kwargs)]). *)
Record Model : Type := {
  model_algo : string;
  model_path : string;
  model_device : string;
  model_kwargs : list (string * Z);
}.

(** The attributes of a [VecNormalize] wrapper: the two flags the script
    assigns and the running statistics it saves. *)
Record VecNormalizeAttrs : Type := {
  training : bool;
  norm_reward : bool;
  running_stats : string;
}.

(** A vectorised environment is a base environment under a chain of
    wrappers. *)
Inductive VecEnv : Type :=
| DummyVecEnv (env_id : string) (n_envs : Z)
| VecEnvWrapper (name : string) (venv : VecEnv)
| VecNormalize (attrs : VecNormalizeAttrs) (venv : VecEnv).

(** [unwrap_vec_normalize(env)]: walks down the wrappers and returns the
    first [VecNormalize] found, [None] when there is none.  The Python
    function returns a reference into the chain; here the attributes read
    through that reference. *)
Fixpoint unwrap_vec_normalize (env : VecEnv) : option VecNormalizeAttrs :=
  match env with
  | DummyVecEnv _ _ => None
  | VecEnvWrapper _ venv => unwrap_vec_normalize venv
  | VecNormalize attrs _ => Some attrs
  end.

(** Attribute assignment through the reference returned by
    [unwrap_vec_normalize]: the wrapper is changed in place, inside the
    chain it belongs to. *)
Fixpoint update_vec_normalize
    (f : VecNormalizeAttrs -> VecNormalizeAttrs) (env : VecEnv) : VecEnv :=
  match env with
  | DummyVecEnv env_id n => DummyVecEnv env_id n
  | VecEnvWrapper name venv => VecEnvWrapper name (update_vec_normalize f venv)
  | VecNormalize attrs venv => VecNormalize (f attrs) venv
  end.

Definition set_training (b : bool) (a : VecNormalizeAttrs) : VecNormalizeAttrs :=
  {| training := b; norm_reward := norm_reward a; running_stats := running_stats a |}.

Definition set_norm_reward (b : bool) (a : VecNormalizeAttrs) : VecNormalizeAttrs :=
  {| training := training a; norm_reward := b; running_stats := running_stats a |}.

(** ** File system *)

Inductive Node : Type :=
| File (content : string)
| Dir.

(** Paths are the strings the program builds; a path is bound to the node
    found there. *)
Abbreviation FS := (gmap string Node).

(** [os.path.isfile(p)], [Path(p).is_file()] *)
Definition is_file (fs : FS) (p : string) : bool :=
  match fs !! p with
  | Some (File _) => true
  | _ => false
  end.

(** [os.path.join(a, b)] on POSIX paths.  It also stands for
    [Path(a) / b], which gives the same string when [a] and [b] are plain
    ([plain_path], [plain_name] below: no empty part, no [.] part, no
    trailing slash); [pathlib] drops such parts, this function keeps
    them. *)
Definition path_join (a b : string) : string :=
  if PyStr.startswith "/" b then b
  else if String.eqb a "" || PyStr.endswith "/" a then a +:+ b
  else a +:+ "/" +:+ b.

Infix "//" := path_join (at level 40, left associativity).

Arguments path_join : simpl never.

(** [monitor_file.split(os.sep)[-1]] *)
Definition last_component (p : string) : string :=
  List.last (PyStr.split "/" p) "".

(** [glob.glob(dir + "/*" + suffix)] ([dir = ""] for a pattern relative to
    the working directory): the entries of [dir] whose name ends with
    [suffix] and does not start with a dot.  The listing order of the
    operating system is not specified; the enumeration order of the map
    stands for it.  [dir] is taken as a literal name: [glob.glob] reads the
    characters [*], [?] and [[] in it as a pattern ([has_magic] below), which
    is not modelled. *)
Definition glob_match (dir suffix p : string) : bool :=
  let prefix := if String.eqb dir "" then "" else dir +:+ "/" in
  let name := PyStr.drop (String.length prefix) p in
  PyStr.startswith prefix p &&
  negb (PyStr.contains "/" name) &&
  negb (PyStr.startswith "." name) &&
  PyStr.endswith suffix name.

Definition glob (dir suffix : string) (fs : FS) : list string :=
  List.filter (glob_match dir suffix) (map fst (map_to_list fs)).

(** ** Calls *)

(** Every call the script makes that acts on something outside its local
    variables, with the arguments that matter. *)
Inductive Call : Type :=
| Print (text : string)
| MsgInfo (text : string)
| SetRandomSeed (seed : Z)
| SetNumThreads (n : Z)
| CreateTestEnv (env_id : string) (n_envs : Z) (stats_path : option string)
    (seed : Z) (should_render : bool) (hyperparams env_kwargs : Dict)
| AlgoLoad (m : Model)
| CreateRepo (token : option string) (repo_id : string)
| RepositoryClone (local_dir clone_from : string)
| GitPull
| LfsTrack (patterns : list string)
| ModelSave (m : Model) (path : string)
| VecNormalizeSave (attrs : VecNormalizeAttrs) (path : string)
| SetTraining (b : bool)
| SetNormReward (b : bool)
| ZipExtractAll (archive dest : string)
| ShutilCopy (src dst : string)
| WriteFile (path content : string)
| EvaluateAgent (m : Model) (env : VecEnv) (n_eval_episodes : Z)
    (is_deterministic : bool) (local_path : string)
| GenerateReplay (m : Model) (env : VecEnv) (video_length : Z)
    (is_deterministic : bool) (local_path : string)
| Unlink (path : string)
| GenerateModelCard (mean_reward std_reward : float)
| MetadataSave (path : string) (metadata : Metadata)
| PushToHub (commit_message : string).

(** ** Library functions

    What the libraries compute is not part of the script.  [lib_fs] is the
    effect of a library call on the files; the other fields are the values
    library functions return. *)
Record Lib : Type := {
  pformat : Dict -> string;
  yaml_dump : Dict -> string;
  yaml_load : string -> YamlDoc;
  zip_members : list (string * string) -> string;
  lib_fs : Call -> FS -> FS;
  create_repo : option string -> string -> string;
  evaluate_agent : Model -> VecEnv -> Z -> bool -> string -> float * float;
  ALGOS_name : string -> string;
  get_model_path :
    Z -> string -> string -> string -> bool -> option Z -> bool ->
    string * string * string;
  is_atari : string -> bool;
  get_saved_hyperparams : string -> Dict * option string;
  create_test_env :
    string -> Z -> option string -> Z -> bool -> Dict -> Dict -> VecEnv;
}.

(** ** The world and the monad of the script *)

Record World : Type := {
  fs : FS;              (* the files *)
  eval_env : VecEnv;    (* the object the variable [eval_env] refers to *)
  calls : list Call;    (* the calls issued so far, oldest first *)
}.

(** A computation returns a value or raises; the world it leaves is kept in
    both cases, as side effects are. *)
Definition M (A : Type) : Type := World -> result A * World.

#[global] Instance M_ret : MRet M := fun A a w => (Ok a, w).

#[global] Instance M_bind : MBind M := fun A B f m w =>
  match m w with
  | (Ok a, w') => f a w'
  | (Raise e, w') => (Raise e, w')
  end.

Definition raise {A : Type} (e : exn) : M A := fun w => (Raise e, w).

Definition get_fs : M FS := fun w => (Ok (fs w), w).

Definition get_eval_env : M VecEnv := fun w => (Ok (eval_env w), w).

Definition set_fs (f : FS -> FS) : M unit := fun w =>
  (Ok tt, {| fs := f (fs w); eval_env := eval_env w; calls := calls w |}).

Definition set_eval_env (f : VecEnv -> VecEnv) : M unit := fun w =>
  (Ok tt, {| fs := fs w; eval_env := f (eval_env w); calls := calls w |}).

Definition log (c : Call) : M unit := fun w =>
  (Ok tt, {| fs := fs w; eval_env := eval_env w; calls := calls w ++ [c] |}).

Definition when (b : bool) (m : M unit) : M unit :=
  if b then m else mret tt.

(** [a, b = pieces]: unpacking into two names raises [ValueError] unless
    there are exactly two pieces. *)
Definition unpack2 (pieces : list string) : M (string * string) :=
  match pieces with
  | [a; b] => mret (a, b)
  | _ => raise ValueError
  end.

(** [Path(p).unlink()] *)
Definition unlink (p : string) : M unit :=
  log (Unlink p);;
  files ← get_fs;
  match files !! p with
  | Some (File _) => set_fs (delete p)
  | Some Dir => raise IsADirectoryError
  | None => raise FileNotFoundError
  end.

(** [open(p, "w")] followed by one write: the file is created or
    overwritten. *)
Definition write_file (p content : string) : M unit :=
  log (WriteFile p content);;
  files ← get_fs;
  match files !! p with
  | Some Dir => raise IsADirectoryError
  | _ => set_fs (<[p := File content]>)
  end.

(** [shutil.copy(src, dst)] *)
Definition shutil_copy (src dst : string) : M unit :=
  log (ShutilCopy src dst);;
  files ← get_fs;
  match files !! src with
  | Some (File content) =>
      match files !! dst with
      | Some Dir => set_fs (<[dst // last_component src := File content]>)
      | _ => set_fs (<[dst := File content]>)
      end
  | Some Dir => raise IsADirectoryError
  | None => raise FileNotFoundError
  end.

Section Script.

Context (L : Lib).

(** A library call is logged and has the library's effect on the files. *)
Definition lib_call (c : Call) : M unit :=
  log c;; set_fs (lib_fs L c).

(** [with zipfile.ZipFile(archive, "r") as zip_ref: zip_ref.extractall(dest)] *)
Definition zip_extract_all (archive dest : string) : M unit :=
  log (ZipExtractAll archive dest);;
  files ← get_fs;
  match files !! archive with
  | Some (File _) => set_fs (lib_fs L (ZipExtractAll archive dest))
  | Some Dir => raise IsADirectoryError
  | None => raise FileNotFoundError
  end.

Definition file_content (files : FS) (p : string) : string :=
  match files !! p with
  | Some (File content) => content
  | _ => ""
  end.

(** The block that fills [train_eval_metrics.zip]: [evaluations.npz] when
    it is a file, then every [*.csv] monitor file of the log folder. *)
Definition zip_train_eval_metrics (log_path repo_local_path : string) : M unit :=
  files ← get_fs;
  let evaluations :=
    if is_file files (log_path // "evaluations.npz")
    then [("evaluations.npz", file_content files (log_path // "evaluations.npz"))]
    else [] in
  let monitors :=
    map (fun monitor_file =>
           (last_component monitor_file, file_content files monitor_file))
        (glob log_path ".csv" files) in
  write_file (repo_local_path // "train_eval_metrics.zip")
             (zip_members L (evaluations ++ monitors)).

(** [save_model_card(repo_dir, generated_model_card, metadata)] *)
Definition save_model_card
    (repo_dir generated_model_card : string) (metadata : Metadata) : M unit :=
  let readme_path := repo_dir // "README.md" in
  (* Always overwrite README *)
  write_file readme_path generated_model_card;;
  (* Save our metrics to Readme metadata *)
  lib_call (MetadataSave readme_path metadata).

(** The "Cleanup files after generation" block of [package_to_hub]. *)
Definition cleanup_replay_files : M unit :=
  let video_path := "test.mp4" in
  files ← get_fs;
  when (is_file files video_path) (unlink video_path);;
  files ← get_fs;
  let json_path := glob "" ".meta.json" files in
  match json_path with
  | first :: _ => unlink first
  | [] => mret tt
  end.

(** The "Save the normalization" block of [package_to_hub]. *)
Definition save_vec_normalize (repo_local_path : string) : M unit :=
  env ← get_eval_env;
  let maybe_vec_normalize := unwrap_vec_normalize env in
  match maybe_vec_normalize with
  | Some attrs =>
      lib_call (VecNormalizeSave attrs (repo_local_path // "vec_normalize.pkl"));;
      (* Do not update the stats at test time *)
      log (SetTraining false);;
      set_eval_env (update_vec_normalize (set_training false));;
      (* Reward normalization is not needed at test time *)
      log (SetNormReward false);;
      set_eval_env (update_vec_normalize (set_norm_reward false))
  | None => mret tt
  end.

Definition package_to_hub
    (model : Model)
    (model_name algo_name algo_class_name log_path : string)
    (hyperparams env_kwargs : Dict)
    (env_id repo_id commit_message : string)
    (is_deterministic : bool)
    (n_eval_episodes : Z)
    (token : option string)
    (local_repo_path : string)
    (video_length : Z)
    (generate_video : bool) : M string :=
  log (MsgInfo
    ("This function will save, evaluate, generate a video of your agent, " +:+
     "create a model card and push everything to the hub. " +:+
     "It might take up to some minutes if video generation is activated. " +:+
     "This is a work in progress: if you encounter a bug, please open an issue."));;
  '(organization, repo_name) ← unpack2 (PyStr.split "/" repo_id);
  (* Step 1: Clone or create the repo *)
  lib_call (CreateRepo token repo_id);;
  let repo_url := create_repo L token repo_id in
  (* Git pull *)
  let repo_local_path := local_repo_path // repo_name in
  lib_call (RepositoryClone repo_local_path repo_url);;
  lib_call GitPull;;
  lib_call (LfsTrack ["*.mp4"]);;
  (* Step 1: Save the model *)
  lib_call (ModelSave model (repo_local_path // model_name));;
  (* Retrieve VecNormalize wrapper if it exists; save the normalization *)
  save_vec_normalize repo_local_path;;
  (* Unzip the model *)
  zip_extract_all (repo_local_path // (model_name +:+ ".zip"))
                  (repo_local_path // model_name);;
  (* Step 2: Copy config files *)
  let args_path := log_path // env_id // "args.yml" in
  let config_path := log_path // env_id // "config.yml" in
  shutil_copy args_path (repo_local_path // "args.yml");;
  shutil_copy config_path (repo_local_path // "config.yml");;
  write_file (repo_local_path // "env_kwargs.yml") (yaml_dump L env_kwargs);;
  (* Copy train/eval metrics into zip *)
  zip_train_eval_metrics log_path repo_local_path;;
  (* Step 3: Evaluate the agent *)
  env ← get_eval_env;
  lib_call (EvaluateAgent model env n_eval_episodes is_deterministic repo_local_path);;
  let '(mean_reward, std_reward) :=
    evaluate_agent L model env n_eval_episodes is_deterministic repo_local_path in
  (* Step 4: Generate a video *)
  when generate_video
    (env ← get_eval_env;
     lib_call (GenerateReplay model env video_length is_deterministic repo_local_path);;
     cleanup_replay_files);;
  (* Step 5: Generate the model card *)
  log (GenerateModelCard mean_reward std_reward);;
  let '(generated_model_card, metadata) :=
    generate_model_card (pformat L) algo_name algo_class_name organization env_id
                        mean_reward std_reward hyperparams env_kwargs in
  save_model_card repo_local_path generated_model_card metadata;;
  log (MsgInfo ("Pushing repo " +:+ repo_name +:+ " to the Hugging Face Hub"));;
  lib_call (PushToHub commit_message);;
  log (MsgInfo ("Your model is pushed to the hub. You can view your model here: "
                +:+ repo_url));;
  mret repo_url.

(** ** The command line entry point *)

(** The namespace returned by [parser.parse_args()]. *)
Record Args : Type := {
  args_env : string;
  args_folder : string;
  args_algo : string;
  args_n_timesteps : Z;
  args_num_threads : Z;
  args_n_envs : Z;
  args_exp_id : Z;
  args_verbose : Z;
  args_no_render : bool;
  args_deterministic : bool;
  args_device : string;
  args_load_best : bool;
  args_load_checkpoint : option Z;
  args_load_last_checkpoint : bool;
  args_stochastic : bool;
  args_seed : Z;
  args_env_kwargs : option Dict;
  args_organization : string;
  args_repo_name : option string;
  args_commit_message : string;
}.

(** [x in xs] on a list of strings. *)
Definition py_in (x : string) (xs : list string) : bool :=
  existsb (String.eqb x) xs.

(** Off-policy algorithm only support one env for now *)
Definition off_policy_algos : list string :=
  ["qrdqn"; "dqn"; "ddpg"; "sac"; "her"; "td3"; "tqc"].

(** [if algo in off_policy_algos: args.n_envs = 1]: the value of
    [args.n_envs] from there on. *)
Definition n_envs (args : Args) : Z :=
  if py_in (args_algo args) off_policy_algos then 1%Z else args_n_envs args.

(** [d.update(other)]: every item of [other] is stored into [d]. *)
Definition dict_update (d other : Dict) : Dict :=
  map_fold (fun key value acc => <[key := value]> acc) d other.

(** The "load env_kwargs if existing" block, then "overwrite with command
    line arguments".  [loaded_args["env_kwargs"]] raises [TypeError] on a
    document that is no mapping and [KeyError] on a mapping without the
    key. *)
Definition load_env_kwargs
    (log_path env_id : string) (cli_env_kwargs : option Dict) : M Dict :=
  let env_kwargs : Dict := ∅ in
  let args_path := log_path // env_id // "args.yml" in
  files ← get_fs;
  env_kwargs ←
    match files !! args_path with
    | Some (File content) =>
        let loaded_args := yaml_load L content in
        match loaded_args with
        | YamlNotMapping => raise TypeError
        | YamlMapping items =>
            match items !! "env_kwargs" with
            | None => raise KeyError
            | Some None => mret env_kwargs
            | Some (Some stored) => mret stored
            end
        end
    | _ => mret env_kwargs
    end;
  match cli_env_kwargs with
  | Some given => mret (dict_update env_kwargs given)
  | None => mret env_kwargs
  end.

(** Deterministic by default except for atari games:
    [stochastic = args.stochastic or is_atari and not args.deterministic] *)
Definition stochastic (args : Args) (atari : bool) : bool :=
  args_stochastic args || atari && negb (args_deterministic args).

Definition deterministic (args : Args) (atari : bool) : bool :=
  negb (stochastic args atari).

(** Default model name, the model will be saved under "{algo}-{env_id}.zip" *)
Definition model_name (algo env_id : string) : string :=
  algo +:+ "-" +:+ env_id.

(** [if args.repo_name is None: args.repo_name = model_name]: the value of
    [args.repo_name] from there on. *)
Definition repo_name (args : Args) : string :=
  match args_repo_name args with
  | None => model_name (args_algo args) (args_env args)
  | Some name => name
  end.

(** [f"{args.organization}/{args.repo_name.replace('/', '-')}"] *)
Definition repo_id (args : Args) : string :=
  args_organization args +:+ "/" +:+ PyStr.replace "/" "-" (repo_name args).

Definition main (args : Args) : M string :=
  let env_id := args_env args in
  let algo := args_algo args in
  let '(_, model_path, log_path) :=
    get_model_path L (args_exp_id args) (args_folder args) (args_algo args)
      (args_env args) (args_load_best args) (args_load_checkpoint args)
      (args_load_last_checkpoint args) in
  log (Print ("Loading " +:+ model_path));;
  let n_envs := n_envs args in
  lib_call (SetRandomSeed (args_seed args));;
  when (0 <? args_num_threads args)%Z
    (when (1 <? args_verbose args)%Z
       (log (Print ("Setting torch.num_threads to " +:+
                    pretty (args_num_threads args))));;
     lib_call (SetNumThreads (args_num_threads args)));;
  let atari := is_atari L env_id in
  let stats_path := log_path // env_id in
  let '(hyperparams, stats_path) := get_saved_hyperparams L stats_path in
  env_kwargs ← load_env_kwargs log_path env_id (args_env_kwargs args);
  lib_call (CreateTestEnv env_id n_envs stats_path (args_seed args)
              (negb (args_no_render args)) hyperparams env_kwargs);;
  set_eval_env (fun _ =>
    create_test_env L env_id n_envs stats_path (args_seed args)
      (negb (args_no_render args)) hyperparams env_kwargs);;
  let kwargs := [("seed", args_seed args)] in
  let kwargs :=
    if py_in algo off_policy_algos
    then (kwargs ++ [("buffer_size", 1%Z)])%list
    else kwargs in
  let model :=
    {| model_algo := algo; model_path := model_path;
       model_device := args_device args; model_kwargs := kwargs |} in
  lib_call (AlgoLoad model);;
  let deterministic := deterministic args atari in
  let repo_id := repo_id args in
  log (Print ("Uploading to " +:+ repo_id +:+ ", make sure to have the rights"));;
  package_to_hub model (model_name algo env_id) algo (ALGOS_name L algo)
    log_path hyperparams env_kwargs env_id repo_id (args_commit_message args)
    deterministic 10 None "hub" 1000 (negb (args_no_render args)).

End Script.

(** Running a computation from given files and environment object, with an
    empty log: the log of the result holds the calls of this run only. *)
Definition run {A : Type} (m : M A) (files : FS) (env : VecEnv) : result A * World :=
  m {| fs := files; eval_env := env; calls := [] |}.

(** ** A concrete library, for examples

    A small instance of [Lib]: saving a model leaves [<path>.zip], replay
    generation leaves its two temporary files in the working directory,
    [metadata_save] puts a front-matter block before the text of the file,
    and the other library calls leave the files alone. *)

(** Modelled from the spec: [metadata_save] of [huggingface_hub] is not
    part of this repository's sources.  The spec lists "[README.md] with
    embedded metadata block" among the files produced: the block comes
    before the text already in the file. *)
Definition front_matter (text : string) : string :=
  "---" +:+ PyStr.nl +:+ "library_name: stable-baselines3" +:+ PyStr.nl +:+
  "---" +:+ PyStr.nl +:+ text.

Definition example_lib_fs (c : Call) (files : FS) : FS :=
  match c with
  | ModelSave _ path => <[path +:+ ".zip" := File "PK"]> files
  | GenerateReplay _ _ _ _ _ =>
      <["test.mp4" := File "video"]> (<["replay.meta.json" := File "{}"]> files)
  | MetadataSave path _ =>
      match files !! path with
      | Some (File text) => <[path := File (front_matter text)]> files
      | _ => files
      end
  | _ => files
  end.

Definition example_env_kwargs : Dict :=
  {[ "difficulty" := PyInt 1; "mode" := PyStr "easy" ]}.

Definition example_lib : Lib := {|
  pformat := fun d => if Nat.eqb (size d) 0 then "{}" else "{...}";
  yaml_dump := fun d => if Nat.eqb (size d) 0 then "{}" else "...";
  yaml_load := fun _ => YamlMapping {[ "env_kwargs" := Some example_env_kwargs ]};
  zip_members := fun _ => "PK";
  lib_fs := example_lib_fs;
  create_repo := fun _ repo_id => "https://huggingface.co/" +:+ repo_id;
  evaluate_agent := fun _ _ _ _ _ => (1.5%float, 0.25%float);
  ALGOS_name := fun _ => "PPO";
  get_model_path := fun _ folder algo env _ _ _ =>
    (env, folder // algo // (env +:+ ".zip"), folder // algo);
  is_atari := fun _ => false;
  get_saved_hyperparams := fun stats_path => (∅, Some stats_path);
  create_test_env := fun env_id n _ _ _ _ _ =>
    VecEnvWrapper "VecMonitor"
      (VecNormalize {| training := true; norm_reward := true;
                       running_stats := "rms" |}
                    (DummyVecEnv env_id n));
|}.

Definition example_args_for (algo : string) (name : option string) : Args := {|
  args_env := "CartPole-v1"; args_folder := "logs"; args_algo := algo;
  args_n_timesteps := 1000; args_num_threads := -1; args_n_envs := 4;
  args_exp_id := 0; args_verbose := 1; args_no_render := false;
  args_deterministic := false; args_device := "auto";
  args_load_best := false; args_load_checkpoint := None;
  args_load_last_checkpoint := false; args_stochastic := false;
  args_seed := 0; args_env_kwargs := Some {[ "mode" := PyStr "hard" ]};
  args_organization := "acme"; args_repo_name := name;
  args_commit_message := "Initial commit" |}.

Definition example_args : Args := example_args_for "ppo" None.

Definition example_model : Model := {|
  model_algo := "ppo"; model_path := "logs/ppo/CartPole-v1.zip";
  model_device := "auto"; model_kwargs := [("seed", 0%Z)] |}.

Definition example_fs : FS :=
  {[ "logs/ppo/CartPole-v1/args.yml" := File "env_kwargs: {difficulty: 1, mode: easy}";
     "logs/ppo/CartPole-v1/config.yml" := File "n_envs: 4";
     "logs/ppo/0.monitor.csv" := File "r,l,t" ]}.

Definition example_env : VecEnv :=
  VecEnvWrapper "VecMonitor"
    (VecNormalize {| training := true; norm_reward := true;
                     running_stats := "rms" |}
                  (DummyVecEnv "CartPole-v1" 4)).

(** An environment id that carries a heading line of its own. *)
Definition env_id_with_heading : string :=
  "CartPole-v1" +:+ PyStr.nl +:+ "# Environment Arguments" +:+ PyStr.nl.

(** The call of [package_to_hub] made by the entry point for
    [example_args], with or without the video. *)
Definition example_package (generate_video : bool) : M string :=
  package_to_hub example_lib example_model "ppo-CartPole-v1" "ppo" "PPO"
    "logs/ppo" ∅ example_env_kwargs "CartPole-v1" "acme/ppo-CartPole-v1"
    "Initial commit" true 10 None "hub" 1000 generate_video.

(** ** The calls of a run, in order

    What [package_to_hub] is meant to issue, step after step.  The
    definitions above do not use this list: the lemma [package_to_hub_calls]
    below proves that the log of every run is a prefix of it, and the whole
    of it when the run returns. *)

(** The environment object once the "Save the normalization" block is
    through. *)
Definition test_env (env : VecEnv) : VecEnv :=
  match unwrap_vec_normalize env with
  | Some _ =>
      update_vec_normalize (set_norm_reward false)
        (update_vec_normalize (set_training false) env)
  | None => env
  end.

Definition vec_normalize_calls (env : VecEnv) (repo_local_path : string) : list Call :=
  match unwrap_vec_normalize env with
  | Some attrs =>
      [VecNormalizeSave attrs (repo_local_path // "vec_normalize.pkl");
       SetTraining false; SetNormReward false]
  | None => []
  end.

(** The rewards the evaluation step returns and the card made from them. *)
Definition pipeline_rewards (L : Lib)
    (model : Model) (is_deterministic : bool) (n_eval_episodes : Z)
    (repo_local_path : string) (env : VecEnv) : float * float :=
  evaluate_agent L model (test_env env) n_eval_episodes is_deterministic
                 repo_local_path.

Definition pipeline_card (L : Lib)
    (model : Model) (algo_name algo_class_name : string)
    (hyperparams env_kwargs : Dict) (env_id : string)
    (is_deterministic : bool) (n_eval_episodes : Z)
    (repo_local_path : string) (env : VecEnv) (organization : string) :
    string * Metadata :=
  let rewards :=
    pipeline_rewards L model is_deterministic n_eval_episodes repo_local_path env in
  generate_model_card (pformat L) algo_name algo_class_name organization
    env_id rewards.1 rewards.2 hyperparams env_kwargs.

Definition pipeline_calls (L : Lib)
    (model : Model) (model_name algo_name algo_class_name log_path : string)
    (hyperparams env_kwargs : Dict) (env_id repo_id commit_message : string)
    (is_deterministic : bool) (n_eval_episodes : Z) (token : option string)
    (local_repo_path : string) (video_length : Z) (generate_video : bool)
    (env : VecEnv) (organization repo_name metrics : string)
    (cleanup : list string) : list Call :=
  let repo_local_path := local_repo_path // repo_name in
  let repo_url := create_repo L token repo_id in
  let rewards :=
    pipeline_rewards L model is_deterministic n_eval_episodes repo_local_path env in
  let card :=
    pipeline_card L model algo_name algo_class_name hyperparams env_kwargs
      env_id is_deterministic n_eval_episodes repo_local_path env organization in
  [MsgInfo
    ("This function will save, evaluate, generate a video of your agent, " +:+
     "create a model card and push everything to the hub. " +:+
     "It might take up to some minutes if video generation is activated. " +:+
     "This is a work in progress: if you encounter a bug, please open an issue.");
   CreateRepo token repo_id;
   RepositoryClone repo_local_path repo_url;
   GitPull;
   LfsTrack ["*.mp4"];
   ModelSave model (repo_local_path // model_name)]
  ++ vec_normalize_calls env repo_local_path
  ++ [ZipExtractAll (repo_local_path // (model_name +:+ ".zip"))
                    (repo_local_path // model_name);
      ShutilCopy (log_path // env_id // "args.yml") (repo_local_path // "args.yml");
      ShutilCopy (log_path // env_id // "config.yml") (repo_local_path // "config.yml");
      WriteFile (repo_local_path // "env_kwargs.yml") (yaml_dump L env_kwargs);
      WriteFile (repo_local_path // "train_eval_metrics.zip") metrics;
      EvaluateAgent model (test_env env) n_eval_episodes is_deterministic
                    repo_local_path]
  ++ (if generate_video
      then GenerateReplay model (test_env env) video_length is_deterministic
                          repo_local_path :: map Unlink cleanup
      else [])
  ++ [GenerateModelCard rewards.1 rewards.2;
      WriteFile (repo_local_path // "README.md") card.1;
      MetadataSave (repo_local_path // "README.md") card.2;
      MsgInfo ("Pushing repo " +:+ repo_name +:+ " to the Hugging Face Hub");
      PushToHub commit_message;
      MsgInfo ("Your model is pushed to the hub. You can view your model here: "
               +:+ repo_url)].

(** What [package_to_hub_calls] states of the outcome of a run. *)
Definition pipeline_post (L : Lib)
    (model : Model) (model_name algo_name algo_class_name log_path : string)
    (hyperparams env_kwargs : Dict) (env_id repo_id commit_message : string)
    (is_deterministic : bool) (n_eval_episodes : Z) (token : option string)
    (local_repo_path : string) (video_length : Z) (generate_video : bool)
    (env : VecEnv) (out : result string * World) : Prop :=
  ∃ organization repo_name metrics cleanup,
    calls out.2 `prefix_of`
      pipeline_calls L model model_name algo_name algo_class_name log_path
        hyperparams env_kwargs env_id repo_id commit_message is_deterministic
        n_eval_episodes token local_repo_path video_length generate_video env
        organization repo_name metrics cleanup ∧
    (length cleanup ≤ 2)%nat ∧
    (∀ url, out.1 = Ok url →
       PyStr.split "/" repo_id = [organization; repo_name] ∧
       calls out.2 =
         pipeline_calls L model model_name algo_name algo_class_name log_path
           hyperparams env_kwargs env_id repo_id commit_message is_deterministic
           n_eval_episodes token local_repo_path video_length generate_video env
           organization repo_name metrics cleanup ∧
       eval_env out.2 = test_env env ∧
       url = create_repo L token repo_id ∧
       ∃ files_before,
         let readme := local_repo_path // repo_name // "README.md" in
         let card :=
           pipeline_card L model algo_name algo_class_name hyperparams
             env_kwargs env_id is_deterministic n_eval_episodes
             (local_repo_path // repo_name) env organization in
         fs out.2 =
           lib_fs L (PushToHub commit_message)
             (lib_fs L (MetadataSave readme card.2)
                (<[readme := File card.1]> files_before))).

(** Kinds of calls. *)
Definition is_evaluate (c : Call) : Prop :=
  match c with EvaluateAgent _ _ _ _ _ => True | _ => False end.

Definition is_generate_card (c : Call) : Prop :=
  match c with GenerateModelCard _ _ => True | _ => False end.

Definition is_replay (c : Call) : Prop :=
  match c with GenerateReplay _ _ _ _ _ => True | _ => False end.

Definition is_vec_normalize_save (c : Call) : Prop :=
  match c with VecNormalizeSave _ _ => True | _ => False end.

Definition is_flag_assignment (c : Call) : Prop :=
  match c with SetTraining _ | SetNormReward _ => True | _ => False end.

(** In the log [tr], every call satisfying [Q] comes after a call
    satisfying [P]. *)
Definition each_after (P Q : Call → Prop) (tr : list Call) : Prop :=
  ∀ i c, tr !! i = Some c → Q c →
         ∃ j d, (j < i)%nat ∧ tr !! j = Some d ∧ P d.

(** ** Notions used to state the properties *)

(** What [replace('/', '-')] does to one character. *)
Definition slash_to_dash (c : ascii) : ascii :=
  if Ascii.eqb c "/" then "-"%char else c.

(** The value the command line gives to a key, if any. *)
Definition cli_value (cli_env_kwargs : option Dict) (key : string) : option PyVal :=
  given ← cli_env_kwargs; given !! key.

(** The evaluation environment of a world was built with [n] environments. *)
Definition built_with (L : Lib) (args : Args) (n : Z) (w : World) : Prop :=
  ∃ stats_path hyperparams env_kwargs,
    eval_env w =
    create_test_env L (args_env args) n stats_path (args_seed args)
      (negb (args_no_render args)) hyperparams env_kwargs.

(** The check that lets a scan for [p] cross a part [x] followed by [r]:
    a head of [p] of length at least [lo] that can end [x] while the rest of
    [p] starts [r] must itself contain [k]. *)
Definition straddle_ok (k p r : string) (lo : nat) : bool :=
  forallb (fun j => PyStr.contains k (PyStr.take j p) ||
                    negb (PyStr.startswith (PyStr.drop j p) r))
          (seq lo (String.length p - lo)).

(** ** Further notions used to state properties *)

(** [s.count(c)] for a one-character [c]. *)
Fixpoint count_char (c : ascii) (s : string) : nat :=
  match s with
  | "" => 0
  | String x s' => (if Ascii.eqb x c then 1 else 0) + count_char c s'
  end.

(** The message [package_to_hub] starts with. *)
Definition pipeline_banner : string :=
  "This function will save, evaluate, generate a video of your agent, " +:+
  "create a model card and push everything to the hub. " +:+
  "It might take up to some minutes if video generation is activated. " +:+
  "This is a work in progress: if you encounter a bug, please open an issue.".

Definition is_push (c : Call) : Prop :=
  match c with PushToHub _ => True | _ => False end.

Definition is_unlink (c : Call) : Prop :=
  match c with Unlink _ => True | _ => False end.

(** The keyword arguments [main] loads a model with. *)
Definition load_kwargs (args : Args) : list (string * Z) :=
  if py_in (args_algo args) off_policy_algos
  then [("seed", args_seed args); ("buffer_size", 1%Z)]
  else [("seed", args_seed args)].


Definition is_metadata_save (c : Call) : Prop :=
  match c with MetadataSave _ _ => True | _ => False end.

(** Calls to the hub. *)
Definition is_hub_call (c : Call) : Prop :=
  match c with
  | CreateRepo _ _ | RepositoryClone _ _ | GitPull | LfsTrack _ | PushToHub _ => True
  | _ => False
  end.

(** The flag for deterministic actions a call is made with, if it takes
    one. *)
Definition action_flag (c : Call) : option bool :=
  match c with
  | EvaluateAgent _ _ _ is_deterministic _
  | GenerateReplay _ _ _ is_deterministic _ => Some is_deterministic
  | _ => None
  end.

Definition is_unzip (c : Call) : Prop :=
  match c with ZipExtractAll _ _ => True | _ => False end.

(** Names and paths that [pathlib] leaves as they are: a name that is not
    empty, not [.] and holds no slash; a relative path made of such names.
    For these [Path(a) / b] is the string [a // b]. *)
Definition plain_name (s : string) : bool :=
  negb (String.eqb s "") && negb (String.eqb s ".") &&
  negb (PyStr.contains "/" s).

Definition plain_path (s : string) : bool :=
  forallb plain_name (PyStr.split "/" s).

(** [glob.has_magic]: the text is a pattern, not a literal name. *)
Definition has_magic (s : string) : bool :=
  PyStr.contains "*" s || PyStr.contains "?" s || PyStr.contains "[" s.

(** ** The entry point, step by step

    What [main] is meant to have done when it reaches the block that loads
    [env_kwargs], and when it calls [package_to_hub].  The definition of
    [main] does not use these: the lemma [main_run] proves that [main] runs
    as they say. *)

(** The paths [get_model_path] returns for the arguments, and what
    [get_saved_hyperparams] returns for them. *)
Definition model_path_of (L : Lib) (args : Args) : string :=
  (get_model_path L (args_exp_id args) (args_folder args) (args_algo args)
     (args_env args) (args_load_best args) (args_load_checkpoint args)
     (args_load_last_checkpoint args)).1.2.

Definition log_path_of (L : Lib) (args : Args) : string :=
  (get_model_path L (args_exp_id args) (args_folder args) (args_algo args)
     (args_env args) (args_load_best args) (args_load_checkpoint args)
     (args_load_last_checkpoint args)).2.

Definition hyperparams_of (L : Lib) (args : Args) : Dict :=
  (get_saved_hyperparams L (log_path_of L args // args_env args)).1.

Definition stats_path_of (L : Lib) (args : Args) : option string :=
  (get_saved_hyperparams L (log_path_of L args // args_env args)).2.

(** The model [ALGOS[algo].load] is asked for. *)
Definition loaded_model (L : Lib) (args : Args) : Model :=
  {| model_algo := args_algo args; model_path := model_path_of L args;
     model_device := args_device args; model_kwargs := load_kwargs args |}.

(** The calls up to the block that loads [env_kwargs], and the world that
    block runs in. *)
Definition startup_calls (L : Lib) (args : Args) : list Call :=
  [Print ("Loading " +:+ model_path_of L args); SetRandomSeed (args_seed args)] ++
  (if (0 <? args_num_threads args)%Z
   then (if (1 <? args_verbose args)%Z
         then [Print ("Setting torch.num_threads to " +:+
                      pretty (args_num_threads args))]
         else []) ++
        [SetNumThreads (args_num_threads args)]
   else []).

Definition load_world (L : Lib) (args : Args) (w : World) : World :=
  let files := lib_fs L (SetRandomSeed (args_seed args)) (fs w) in
  {| fs := if (0 <? args_num_threads args)%Z
           then lib_fs L (SetNumThreads (args_num_threads args)) files
           else files;
     eval_env := eval_env w;
     calls := calls w ++ startup_calls L args |}.

(** The call that builds the evaluation environment. *)
Definition create_test_env_call (L : Lib) (args : Args) (env_kwargs : Dict) : Call :=
  CreateTestEnv (args_env args) (n_envs args) (stats_path_of L args)
    (args_seed args) (negb (args_no_render args)) (hyperparams_of L args)
    env_kwargs.

(** The calls between the loading of [env_kwargs] and the pipeline, and
    the world [package_to_hub] is called in. *)
Definition handover_calls (L : Lib) (args : Args) (env_kwargs : Dict) : list Call :=
  [create_test_env_call L args env_kwargs;
   AlgoLoad (loaded_model L args);
   Print ("Uploading to " +:+ repo_id args +:+ ", make sure to have the rights")].

Definition pipeline_world
    (L : Lib) (args : Args) (w : World) (env_kwargs : Dict) : World :=
  let w1 := load_world L args w in
  {| fs := lib_fs L (AlgoLoad (loaded_model L args))
             (lib_fs L (create_test_env_call L args env_kwargs) (fs w1));
     eval_env :=
       create_test_env L (args_env args) (n_envs args) (stats_path_of L args)
         (args_seed args) (negb (args_no_render args)) (hyperparams_of L args)
         env_kwargs;
     calls := calls w1 ++ handover_calls L args env_kwargs |}.

(** What holds of a run of [package_to_hub] started in any world [w]: the
    calls it adds are a prefix of [pipeline_calls], for the two pieces of
    the repository id when it has two; a run that raises has neither saved
    the metadata nor pushed; a run that returns ends with [save_model_card],
    two messages and the push. *)
Definition pipeline_outcome (L : Lib)
    (model : Model) (model_name algo_name algo_class_name log_path : string)
    (hyperparams env_kwargs : Dict) (env_id repo_id commit_message : string)
    (is_deterministic : bool) (n_eval_episodes : Z) (token : option string)
    (local_repo_path : string) (video_length : Z) (generate_video : bool)
    (w : World) (out : result string * World) : Prop :=
  ∃ organization repo_name metrics cleanup done,
    calls out.2 = (calls w ++ done)%list ∧
    done `prefix_of`
      pipeline_calls L model model_name algo_name algo_class_name log_path
        hyperparams env_kwargs env_id repo_id commit_message is_deterministic
        n_eval_episodes token local_repo_path video_length generate_video
        (eval_env w) organization repo_name metrics cleanup ∧
    (∀ o r, PyStr.split "/" repo_id = [o; r] → o = organization ∧ r = repo_name) ∧
    (∀ e, out.1 = Raise e →
       Forall (fun c => ¬ is_push c ∧ ¬ is_metadata_save c) done) ∧
    (∀ url, out.1 = Ok url →
       PyStr.split "/" repo_id = [organization; repo_name] ∧
       url = create_repo L token repo_id ∧
       ∃ w_card w_saved,
         let card :=
           pipeline_card L model algo_name algo_class_name hyperparams
             env_kwargs env_id is_deterministic n_eval_episodes
             (local_repo_path // repo_name) (eval_env w) organization in
         save_model_card L (local_repo_path // repo_name) card.1 card.2 w_card =
           (Ok tt, w_saved) ∧
         out.2 =
           {| fs := lib_fs L (PushToHub commit_message) (fs w_saved);
              eval_env := eval_env w_saved;
              calls := calls w_saved ++
                [MsgInfo ("Pushing repo " +:+ repo_name +:+
                          " to the Hugging Face Hub");
                 PushToHub commit_message;
                 MsgInfo ("Your model is pushed to the hub. You can view your model here: "
                          +:+ url)] |}).

(** ** Further example data *)

(** As [example_args], for an organization given with a slash. *)
Definition example_args_nested : Args := {|
  args_env := "CartPole-v1"; args_folder := "logs"; args_algo := "ppo";
  args_n_timesteps := 1000; args_num_threads := -1; args_n_envs := 4;
  args_exp_id := 0; args_verbose := 1; args_no_render := false;
  args_deterministic := false; args_device := "auto";
  args_load_best := false; args_load_checkpoint := None;
  args_load_last_checkpoint := false; args_stochastic := false;
  args_seed := 0; args_env_kwargs := None;
  args_organization := "acme/team"; args_repo_name := None;
  args_commit_message := "Initial commit" |}.

(** As [example_args], asking for two threads. *)
Definition example_args_threads : Args := {|
  args_env := "CartPole-v1"; args_folder := "logs"; args_algo := "ppo";
  args_n_timesteps := 1000; args_num_threads := 2; args_n_envs := 4;
  args_exp_id := 0; args_verbose := 1; args_no_render := false;
  args_deterministic := false; args_device := "auto";
  args_load_best := false; args_load_checkpoint := None;
  args_load_last_checkpoint := false; args_stochastic := false;
  args_seed := 0; args_env_kwargs := None;
  args_organization := "acme"; args_repo_name := None;
  args_commit_message := "Initial commit" |}.

(** As [example_lib], with an [args.yml] that loads as [doc]. *)
Definition example_lib_loading (doc : YamlDoc) : Lib := {|
  pformat := pformat example_lib;
  yaml_dump := yaml_dump example_lib;
  yaml_load := fun _ => doc;
  zip_members := zip_members example_lib;
  lib_fs := example_lib_fs;
  create_repo := create_repo example_lib;
  evaluate_agent := evaluate_agent example_lib;
  ALGOS_name := ALGOS_name example_lib;
  get_model_path := get_model_path example_lib;
  is_atari := is_atari example_lib;
  get_saved_hyperparams := get_saved_hyperparams example_lib;
  create_test_env := create_test_env example_lib;
|}.

(** The keyword arguments of the example once the command line has
    overridden those of [args.yml]. *)
Definition example_kwargs_effective : Dict :=
  <["mode" := PyStr "hard"]> example_env_kwargs.

(** A working directory where [replay.meta.json] is a directory. *)
Definition example_fs_meta_dir : FS := {[ "replay.meta.json" := Dir ]}.

(** A local repository where [README.md] is a directory, and one where it
    is a file left by an earlier run. *)
Definition example_fs_readme_dir : FS := {[ "hub/README.md" := Dir ]}.

Definition example_fs_old_readme : FS := {[ "hub/README.md" := File "old" ]}.

Definition world_of (files : FS) : World :=
  {| fs := files; eval_env := example_env; calls := [] |}.
(** * Properties *)

(** ** Searching in concatenations *)

Section Scan.

Import PyStr.

#[local] Arguments String.append !_ _ / : simpl nomatch.

Lemma append_assoc (a b c : string) : (a +:+ b) +:+ c = a +:+ (b +:+ c).
Proof. induction a as [|x a IH]; cbn; [reflexivity | f_equal; exact IH]. Qed.

Lemma startswith_app_l (p s r : string) :
  startswith p s = true → startswith p (s +:+ r) = true.
Proof.
  revert s. induction p as [|a p IH]; intros s H; [reflexivity |].
  destruct s as [|b s]; simpl in *; [discriminate |].
  apply andb_true_iff in H as [Hab Hp]. now rewrite Hab, (IH _ Hp).
Qed.

Lemma contains_startswith (p s : string) :
  startswith p s = true → contains p s = true.
Proof. intros H. destruct s; simpl in *; now rewrite H. Qed.

Lemma contains_cons (p : string) (c : ascii) (s : string) :
  contains p s = true → contains p (String c s) = true.
Proof. intros H. simpl. rewrite H. apply orb_true_r. Qed.

Lemma contains_app_l (p a b : string) :
  contains p a = true → contains p (a +:+ b) = true.
Proof.
  induction a as [|x a IH]; intros H.
  - simpl in H. rewrite orb_false_r in H.
    destruct p; [| discriminate H]. now destruct b.
  - change (String x a +:+ b) with (String x (a +:+ b)).
    simpl in H. apply orb_true_iff in H as [H | H].
    + apply contains_startswith.
      now apply (startswith_app_l p (String x a) b).
    + apply contains_cons. now apply IH.
Qed.

Lemma contains_app_r (p a b : string) :
  contains p b = true → contains p (a +:+ b) = true.
Proof.
  intros H. induction a as [|x a IH]; [exact H |].
  apply contains_cons, IH.
Qed.

(** A prefix test on a concatenation succeeds inside the first part, or
    the first part is a proper head of the pattern and the rest of the
    pattern starts the second part. *)
Lemma startswith_app (p x r : string) :
  startswith p (x +:+ r) = true →
  startswith p x = true ∨
  (String.length x < String.length p ∧
   x = take (String.length x) p ∧
   startswith (drop (String.length x) p) r = true).
Proof.
  revert x. induction p as [|a p IH]; intros x H; [now left |].
  destruct x as [|b x].
  - right. simpl. split; [lia |]. split; [reflexivity | exact H].
  - simpl in H. apply andb_true_iff in H as [Hab Hp].
    destruct (IH _ Hp) as [Hx | (Hlen & Htake & Hdrop)].
    + left. simpl. now rewrite Hab.
    + right. simpl. split; [lia |]. split; [| exact Hdrop].
      apply Ascii.eqb_eq in Hab. subst b. now rewrite <- Htake.
Qed.

Lemma startswith_take_drop (p x : string) :
  startswith p x = true → x = p +:+ drop (String.length p) x.
Proof.
  revert x. induction p as [|a p IH]; intros x H; [reflexivity |].
  destruct x as [|b x]; simpl in *; [discriminate |].
  apply andb_true_iff in H as [Hab Hp]. apply Ascii.eqb_eq in Hab.
  subst b. now rewrite <- (IH _ Hp).
Qed.

Lemma scan_straddle (k p x r : string) (lo : nat) :
  contains k p = true →
  straddle_ok k p r lo = true →
  (lo ≤ String.length x)%nat →
  startswith p (x +:+ r) = true →
  contains k x = true.
Proof.
  intros Hkp Hok Hlo H.
  destruct (startswith_app _ _ _ H) as [Hx | (Hlen & Htake & Hdrop)].
  - rewrite (startswith_take_drop _ _ Hx). now apply contains_app_l.
  - unfold straddle_ok in Hok. rewrite forallb_forall in Hok.
    specialize (Hok (String.length x)).
    rewrite Hdrop, orb_false_r, <- Htake in Hok.
    apply Hok, in_seq. lia.
Qed.

(** Scanning for [p] across a part [h]: an occurrence that starts in [h]
    puts [k] inside [h]; otherwise it lies in what follows. *)
Lemma contains_hole (k p h r : string) :
  contains k p = true →
  straddle_ok k p r 1 = true →
  contains p (h +:+ r) = true →
  contains k h = true ∨ contains p r = true.
Proof.
  intros Hkp Hok. induction h as [|c h IH]; intros H; [now right |].
  change (String c h +:+ r) with (String c (h +:+ r)) in H.
  simpl in H. apply orb_true_iff in H as [H | H].
  - left. apply (scan_straddle k p (String c h) r 1); try assumption.
    simpl. lia.
  - destruct (IH H) as [Hk | Hr]; [left | now right].
    now apply contains_cons.
Qed.

End Scan.

(** ** Running the operations *)

Section Operations.

Context (L : Lib).

(** Unfolds the plumbing of the monad, not the operations. *)
Ltac monad_steps :=
  repeat first
    [ progress unfold mbind, M_bind, mret, M_ret, when, raise,
                      get_fs, get_eval_env, set_fs, set_eval_env
    | progress cbn beta iota zeta delta [fs eval_env calls fst snd] ].

Lemma log_run (c : Call) (w : World) :
  log c w =
  (Ok tt, {| fs := fs w; eval_env := eval_env w; calls := calls w ++ [c] |}).
Proof. reflexivity. Qed.

Lemma lib_call_run (c : Call) (w : World) :
  lib_call L c w =
  (Ok tt, {| fs := lib_fs L c (fs w); eval_env := eval_env w;
             calls := calls w ++ [c] |}).
Proof. reflexivity. Qed.

Lemma unpack2_run (pieces : list string) (w : World) :
  (∃ a b, pieces = [a; b] ∧ unpack2 pieces w = (Ok (a, b), w)) ∨
  unpack2 pieces w = (Raise ValueError, w).
Proof.
  destruct pieces as [|a [|b [|c pieces]]]; try (now right).
  left. now exists a, b.
Qed.

Lemma write_file_run (p content : string) (w : World) :
  write_file p content w =
    (Ok tt, {| fs := <[p := File content]> (fs w); eval_env := eval_env w;
               calls := calls w ++ [WriteFile p content] |}) ∨
  write_file p content w =
    (Raise IsADirectoryError,
     {| fs := fs w; eval_env := eval_env w;
        calls := calls w ++ [WriteFile p content] |}).
Proof.
  unfold write_file. monad_steps. rewrite log_run. monad_steps.
  destruct (fs w !! p) as [[c |] |]; auto.
Qed.

Lemma shutil_copy_run (src dst : string) (w : World) :
  ∃ r files',
    shutil_copy src dst w =
    (r, {| fs := files'; eval_env := eval_env w;
           calls := calls w ++ [ShutilCopy src dst] |}).
Proof.
  unfold shutil_copy. monad_steps. rewrite log_run. monad_steps.
  destruct (fs w !! src) as [[c |] |]; eauto.
  destruct (fs w !! dst) as [[c' |] |]; eauto.
Qed.

Lemma zip_extract_all_run (archive dest : string) (w : World) :
  ∃ r files',
    zip_extract_all L archive dest w =
    (r, {| fs := files'; eval_env := eval_env w;
           calls := calls w ++ [ZipExtractAll archive dest] |}).
Proof.
  unfold zip_extract_all. monad_steps. rewrite log_run. monad_steps.
  destruct (fs w !! archive) as [[c |] |]; eauto.
Qed.

(** Deleting a path: it succeeds on a file, and cannot fail for a missing
    file when something is there. *)
Lemma unlink_run (p : string) (w : World) :
  match fs w !! p with
  | Some (File _) =>
      unlink p w =
      (Ok tt, {| fs := delete p (fs w); eval_env := eval_env w;
                 calls := calls w ++ [Unlink p] |})
  | Some Dir =>
      unlink p w =
      (Raise IsADirectoryError,
       {| fs := fs w; eval_env := eval_env w; calls := calls w ++ [Unlink p] |})
  | None =>
      unlink p w =
      (Raise FileNotFoundError,
       {| fs := fs w; eval_env := eval_env w; calls := calls w ++ [Unlink p] |})
  end.
Proof.
  unfold unlink. monad_steps. rewrite log_run. monad_steps.
  destruct (fs w !! p) as [[c |] |]; reflexivity.
Qed.

Lemma save_vec_normalize_run (repo_local_path : string) (w : World) :
  ∃ files',
    save_vec_normalize L repo_local_path w =
    (Ok tt, {| fs := files'; eval_env := test_env (eval_env w);
               calls := calls w ++ vec_normalize_calls (eval_env w) repo_local_path |}).
Proof.
  unfold save_vec_normalize, test_env, vec_normalize_calls. monad_steps.
  destruct (unwrap_vec_normalize (eval_env w)) as [attrs |].
  - rewrite lib_call_run. monad_steps. rewrite !log_run. monad_steps.
    rewrite <- !app_assoc. cbn [app]. eauto.
  - monad_steps. rewrite app_nil_r. destruct w. eauto.
Qed.

Lemma zip_train_eval_metrics_run (log_path repo_local_path : string) (w : World) :
  ∃ r files' metrics,
    zip_train_eval_metrics L log_path repo_local_path w =
    (r, {| fs := files'; eval_env := eval_env w;
           calls := calls w ++
             [WriteFile (repo_local_path // "train_eval_metrics.zip") metrics] |}).
Proof.
  unfold zip_train_eval_metrics. monad_steps.
  match goal with |- context [write_file ?p ?c w] =>
    destruct (write_file_run p c w) as [-> | ->] end; eauto.
Qed.

Lemma save_model_card_run (repo_dir card : string) (metadata : Metadata) (w : World) :
  save_model_card L repo_dir card metadata w =
    (Ok tt,
     {| fs := lib_fs L (MetadataSave (repo_dir // "README.md") metadata)
                (<[repo_dir // "README.md" := File card]> (fs w));
        eval_env := eval_env w;
        calls := calls w ++ [WriteFile (repo_dir // "README.md") card;
                             MetadataSave (repo_dir // "README.md") metadata] |}) ∨
  save_model_card L repo_dir card metadata w =
    (Raise IsADirectoryError,
     {| fs := fs w; eval_env := eval_env w;
        calls := calls w ++ [WriteFile (repo_dir // "README.md") card] |}).
Proof.
  unfold save_model_card. monad_steps.
  destruct (write_file_run (repo_dir // "README.md") card w) as [-> | ->];
    [left | now right].
  rewrite lib_call_run. monad_steps. now rewrite <- app_assoc.
Qed.

Lemma glob_elem (dir suffix : string) (files : FS) (p : string) :
  In p (glob dir suffix files) →
  is_Some (files !! p) ∧ glob_match dir suffix p = true.
Proof.
  unfold glob. rewrite filter_In, in_map_iff.
  intros [([q node] & Hq & Hin) Hmatch]. simpl in Hq. subst q.
  split; [| exact Hmatch]. exists node.
  apply elem_of_map_to_list. now apply list_elem_of_In.
Qed.

Lemma glob_none (dir suffix : string) (files : FS) :
  (∀ p, glob_match dir suffix p = true → files !! p = None) →
  glob dir suffix files = [].
Proof.
  intros Hnone. destruct (glob dir suffix files) as [| p ps] eqn:Hglob;
    [reflexivity |].
  destruct (glob_elem dir suffix files p) as [[node Hnode] Hmatch].
  { rewrite Hglob. now left. }
  rewrite (Hnone p Hmatch) in Hnode. discriminate Hnode.
Qed.

Lemma cleanup_replay_files_run (w : World) :
  ∃ r files' paths,
    cleanup_replay_files w =
    (r, {| fs := files'; eval_env := eval_env w;
           calls := calls w ++ map Unlink paths |}) ∧
    (length paths ≤ 2)%nat ∧
    r ≠ Raise FileNotFoundError.
Proof.
  unfold cleanup_replay_files. monad_steps.
  assert (Hsecond : ∀ w1 : World, ∃ r files' paths,
    match glob "" ".meta.json" (fs w1) with
    | [] => λ w0 : World, (Ok (), w0)
    | first :: _ => unlink first
    end w1 =
    (r, {| fs := files'; eval_env := eval_env w1;
           calls := calls w1 ++ map Unlink paths |}) ∧
    (length paths ≤ 1)%nat ∧ r ≠ Raise FileNotFoundError).
  { intros w1.
    destruct (glob "" ".meta.json" (fs w1)) as [| first rest] eqn:Hglob.
    - exists (Ok tt), (fs w1), []. cbn. rewrite app_nil_r.
      destruct w1. cbn. split; [reflexivity |]. split; [lia | discriminate].
    - destruct (glob_elem "" ".meta.json" (fs w1) first) as [[node Hnode] _].
      { rewrite Hglob. now left. }
      pose proof (unlink_run first w1) as Hrun. rewrite Hnode in Hrun.
      destruct node; rewrite Hrun; eexists _, _, [first]; cbn;
        (split; [reflexivity |]); (split; [lia | discriminate]). }
  unfold is_file.
  destruct (fs w !! "test.mp4") as [[content |] |] eqn:Hvideo.
  - pose proof (unlink_run "test.mp4" w) as Hrun. rewrite Hvideo in Hrun.
    rewrite Hrun. monad_steps.
    destruct (Hsecond {| fs := delete "test.mp4" (fs w); eval_env := eval_env w;
                         calls := calls w ++ [Unlink "test.mp4"] |})
      as (r & files' & paths & Heq & Hlen & Hr).
    exists r, files', ("test.mp4" :: paths).
    split; [| split; [cbn; lia | exact Hr]].
    etransitivity; [exact Heq |]. cbn [eval_env calls].
    now rewrite <- app_assoc.
  - monad_steps. destruct (Hsecond w) as (r & files' & paths & Heq & Hlen & Hr).
    exists r, files', paths. split; [| split; [lia | exact Hr]].
    destruct w as [files env log]. exact Heq.
  - monad_steps. destruct (Hsecond w) as (r & files' & paths & Heq & Hlen & Hr).
    exists r, files', paths. split; [| split; [lia | exact Hr]].
    destruct w as [files env log]. exact Heq.
Qed.

(** ** Cleanup of the temporary files *)

(** C6: when neither [test.mp4] nor any [*.meta.json] file exists, the
    cleanup step returns normally and changes nothing; and whatever the
    files are, it never raises the missing-file error, each deletion being
    attempted only on a path found to exist. *)
Theorem cleanup_safe_when_files_absent (w : World) :
  (fs w !! "test.mp4" = None →
   (∀ p, glob_match "" ".meta.json" p = true → fs w !! p = None) →
   cleanup_replay_files w = (Ok tt, w)) ∧
  (cleanup_replay_files w).1 ≠ Raise FileNotFoundError.
Proof.
  split.
  - intros Hvideo Hmeta. unfold cleanup_replay_files. monad_steps.
    unfold is_file. rewrite Hvideo. monad_steps.
    now rewrite (glob_none _ _ _ Hmeta).
  - destruct (cleanup_replay_files_run w) as (r & files' & paths & Heq & _ & Hr).
    now rewrite Heq.
Qed.

(** ** The calls of a run of [package_to_hub] *)

Ltac run_step :=
  monad_steps;
  lazymatch goal with
  | |- context [log ?c ?w] => rewrite (log_run c w)
  | |- context [lib_call L ?c ?w] => rewrite (lib_call_run c w)
  | |- context [unpack2 ?l ?w] =>
      let Hsplit := fresh "Hsplit" in
      destruct (unpack2_run l w) as [(? & ? & Hsplit & ->) | ->]
  | |- context [save_vec_normalize L ?p ?w] =>
      destruct (save_vec_normalize_run p w) as (? & ->)
  | |- context [zip_extract_all L ?a ?d ?w] =>
      destruct (zip_extract_all_run a d w) as ([[] | ?] & ? & ->)
  | |- context [shutil_copy ?a ?d ?w] =>
      destruct (shutil_copy_run a d w) as ([[] | ?] & ? & ->)
  | |- context [write_file ?a ?d ?w] =>
      destruct (write_file_run a d w) as [-> | ->]
  | |- context [zip_train_eval_metrics L ?a ?d ?w] =>
      destruct (zip_train_eval_metrics_run a d w) as ([[] | ?] & ? & ? & ->)
  | |- context [cleanup_replay_files ?w] =>
      let Hlen := fresh "Hlen" in
      destruct (cleanup_replay_files_run w) as ([[] | ?] & ? & ? & -> & Hlen & _)
  | |- context [save_model_card L ?a ?d ?m ?w] =>
      destruct (save_model_card_run a d m w) as [-> | ->]
  | |- context [let '(_, _) := evaluate_agent L ?m ?e ?k ?d ?p in _] =>
      let Hrewards := fresh "Hrewards" in
      destruct (evaluate_agent L m e k d p) eqn:Hrewards
  | |- context [let '(_, _) := generate_model_card ?f ?a ?c ?o ?e ?m ?s ?h ?k in _] =>
      let Hcard := fresh "Hcard" in
      destruct (generate_model_card f a c o e m s h k) eqn:Hcard
  | |- context [if ?b then _ else _] => is_var b; destruct b
  end.

Ltac prefix_steps :=
  repeat first
    [ apply prefix_nil | apply prefix_cons | apply prefix_app
    | apply prefix_app_r; reflexivity ].

(** At the end of a path through the pipeline: names the pieces the log
    shows and compares it with [pipeline_calls]. *)
Ltac run_end :=
  unfold pipeline_post; cbn [fst snd calls eval_env fs];
  lazymatch goal with
  | H : PyStr.split _ _ = [?o; ?r] |- _ => exists o, r
  | _ => exists "", ""
  end;
  lazymatch goal with
  | |- context [WriteFile (_ // "train_eval_metrics.zip") ?m] => exists m
  | _ => exists ""
  end;
  lazymatch goal with
  | |- context [map Unlink ?c] => exists c
  | _ => exists (@nil string)
  end;
  unfold pipeline_calls, pipeline_card, pipeline_rewards;
  repeat match goal with
         | H : evaluate_agent _ _ _ _ _ _ = _ |- _ => rewrite H; clear H
         end;
  cbn [fst snd];
  repeat match goal with
         | H : generate_model_card _ _ _ _ _ _ _ _ _ = _ |- _ => rewrite H; clear H
         end;
  cbn [fst snd];
  rewrite <- ?app_assoc; cbn [app];
  split; [ prefix_steps | split; [ first [ assumption | cbn; lia ] | ] ];
  intros url Hurl; first [ discriminate Hurl | injection Hurl as <- ];
  repeat split; try assumption; try reflexivity;
  eexists; reflexivity.

(** The log of a run is a prefix of [pipeline_calls], and all of it when
    the run returns; the files at the end are those [save_model_card] left,
    after the push. *)
Lemma package_to_hub_calls
    (model : Model) (model_name algo_name algo_class_name log_path : string)
    (hyperparams env_kwargs : Dict) (env_id repo_id commit_message : string)
    (is_deterministic : bool) (n_eval_episodes : Z) (token : option string)
    (local_repo_path : string) (video_length : Z) (generate_video : bool)
    (files : FS) (env : VecEnv) :
  pipeline_post L model model_name algo_name algo_class_name log_path
    hyperparams env_kwargs env_id repo_id commit_message is_deterministic
    n_eval_episodes token local_repo_path video_length generate_video env
    (run (package_to_hub L model model_name algo_name algo_class_name log_path
            hyperparams env_kwargs env_id repo_id commit_message
            is_deterministic n_eval_episodes token local_repo_path
            video_length generate_video) files env).
Proof.
  unfold run, package_to_hub.
  repeat run_step; monad_steps; run_end.
Qed.

(** ** A run of [package_to_hub] from any world *)

Lemma unpack2_cases (pieces : list string) (w : World) :
  (∃ a b, pieces = [a; b] ∧ unpack2 pieces w = (Ok (a, b), w)) ∨
  ((∀ a b, pieces ≠ [a; b]) ∧ unpack2 pieces w = (Raise ValueError, w)).
Proof.
  destruct pieces as [|a [|b [|c pieces]]];
    try (right; split; [intros ? ?; discriminate | reflexivity]).
  left. now exists a, b.
Qed.

(** As [run_step], keeping what the unpacking and [save_model_card]
    did. *)
Ltac run_step_card :=
  monad_steps;
  lazymatch goal with
  | |- context [unpack2 ?l ?w] =>
      let Hsplit := fresh "Hsplit" in
      destruct (unpack2_cases l w) as [(? & ? & Hsplit & ->) | (Hsplit & ->)]
  | |- context [save_model_card L ?a ?d ?m ?w] =>
      let Hsaved := fresh "Hsaved" in
      destruct (save_model_card_run a d m w) as [Hsaved | Hsaved];
      rewrite Hsaved
  | _ => run_step
  end.

Ltac no_push_no_metadata :=
  repeat match goal with
         | |- Forall _ (_ ++ _)%list => apply Forall_app; split
         | |- Forall _ []%list => constructor
         | |- Forall _ (_ :: _)%list => apply Forall_cons; split; [cbn; tauto |]
         | |- Forall _ (vec_normalize_calls _ _) =>
             unfold vec_normalize_calls; destruct (unwrap_vec_normalize _)
         | |- Forall _ (map Unlink _) =>
             apply Forall_forall;
             intros ? (? & <- & _)%list_elem_of_In%in_map_iff; cbn; tauto
         end.

(** At the end of a path through the pipeline, for [pipeline_outcome]. *)
Ltac outcome_end :=
  unfold pipeline_outcome; cbn [fst snd calls eval_env fs];
  lazymatch goal with
  | H : PyStr.split _ _ = [?o; ?r] |- _ => exists o, r
  | _ => exists "", ""
  end;
  lazymatch goal with
  | |- context [WriteFile (_ // "train_eval_metrics.zip") ?m] => exists m
  | _ => exists ""
  end;
  lazymatch goal with
  | |- context [map Unlink ?c] => exists c
  | _ => exists (@nil string)
  end;
  eexists;
  (split; [rewrite <- ?app_assoc; cbn [app]; reflexivity |]);
  unfold pipeline_calls, pipeline_card, pipeline_rewards;
  repeat match goal with
         | H : evaluate_agent _ _ _ _ _ _ = _ |- _ => rewrite H; clear H
         end;
  cbn [fst snd];
  repeat match goal with
         | H : generate_model_card _ _ _ _ _ _ _ _ _ = _ |- _ => rewrite H; clear H
         end;
  cbn [fst snd];
  rewrite <- ?app_assoc; cbn [app];
  split; [ prefix_steps | split; [ | split ] ];
  [ lazymatch goal with
    | Hsplit : PyStr.split _ _ = [_; _] |- _ =>
        intros ? ? Heq; rewrite Hsplit in Heq; injection Heq as <- <-;
        split; reflexivity
    | Hsplit : ∀ a b, PyStr.split _ _ ≠ [a; b] |- _ =>
        intros ? ? Heq; exfalso; exact (Hsplit _ _ Heq)
    end
  | intros ? He; first [ discriminate He | no_push_no_metadata ]
  | intros url Hurl; first [ discriminate Hurl | injection Hurl as <- ];
    (split; [assumption |]); (split; [reflexivity |]);
    lazymatch goal with
    | Hsaved : save_model_card L _ _ _ ?w1 = (Ok tt, ?w2) |- _ =>
        exists w1, w2; split; [exact Hsaved |]
    end;
    cbn [fs eval_env calls]; rewrite <- ?app_assoc; reflexivity ].

Lemma package_to_hub_outcome
    (model : Model) (model_name algo_name algo_class_name log_path : string)
    (hyperparams env_kwargs : Dict) (env_id repo_id commit_message : string)
    (is_deterministic : bool) (n_eval_episodes : Z) (token : option string)
    (local_repo_path : string) (video_length : Z) (generate_video : bool)
    (w : World) :
  pipeline_outcome L model model_name algo_name algo_class_name log_path
    hyperparams env_kwargs env_id repo_id commit_message is_deterministic
    n_eval_episodes token local_repo_path video_length generate_video w
    (package_to_hub L model model_name algo_name algo_class_name log_path
       hyperparams env_kwargs env_id repo_id commit_message is_deterministic
       n_eval_episodes token local_repo_path video_length generate_video w).
Proof.
  unfold package_to_hub.
  repeat run_step_card; monad_steps; outcome_end.
Qed.

(** ** The entry point up to the pipeline *)

(** The block that loads [env_kwargs] changes nothing, and an exception
    it raises is one of two. *)
Lemma load_env_kwargs_run (log_path env_id : string) (cli : option Dict) (w : World) :
  (∃ env_kwargs, load_env_kwargs L log_path env_id cli w = (Ok env_kwargs, w)) ∨
  load_env_kwargs L log_path env_id cli w = (Raise KeyError, w) ∨
  load_env_kwargs L log_path env_id cli w = (Raise TypeError, w).
Proof.
  unfold load_env_kwargs. monad_steps.
  destruct (fs w !! (log_path // env_id // "args.yml")) as [[content |] |];
    try (destruct cli; left; eexists; reflexivity).
  destruct (yaml_load L content) as [items |]; [| now right; right].
  destruct (items !! "env_kwargs") as [[stored |] |];
    try (destruct cli; left; eexists; reflexivity).
  now right; left.
Qed.

Lemma load_env_kwargs_world (log_path env_id : string) (cli : option Dict) (w : World) :
  load_env_kwargs L log_path env_id cli w =
  ((load_env_kwargs L log_path env_id cli w).1, w).
Proof.
  destruct (load_env_kwargs_run log_path env_id cli w) as [[kw ->] | [-> | ->]];
    reflexivity.
Qed.

(** [main] runs up to the block that loads [env_kwargs]; an exception of
    that block ends it there; otherwise it builds the environment, loads
    the model and calls [package_to_hub]. *)
Lemma main_run (args : Args) (w : World) :
  main L args w =
  match (load_env_kwargs L (log_path_of L args) (args_env args)
           (args_env_kwargs args) (load_world L args w)).1 with
  | Ok env_kwargs =>
      package_to_hub L (loaded_model L args)
        (model_name (args_algo args) (args_env args)) (args_algo args)
        (ALGOS_name L (args_algo args)) (log_path_of L args)
        (hyperparams_of L args) env_kwargs (args_env args) (repo_id args)
        (args_commit_message args)
        (deterministic args (is_atari L (args_env args))) 10 None "hub" 1000
        (negb (args_no_render args)) (pipeline_world L args w env_kwargs)
  | Raise e => (Raise e, load_world L args w)
  end.
Proof.
  unfold main, pipeline_world, handover_calls, create_test_env_call, load_world,
    startup_calls, loaded_model, load_kwargs, hyperparams_of, stats_path_of,
    log_path_of, model_path_of.
  destruct (get_model_path L _ _ _ _ _ _ _) as [[name path] log_path].
  cbn [fst snd].
  destruct (get_saved_hyperparams L _) as [hyperparams stats_path].
  cbn [fst snd].
  monad_steps. rewrite log_run. monad_steps. rewrite lib_call_run. monad_steps.
  destruct (0 <? args_num_threads args)%Z;
    [destruct (1 <? args_verbose args)%Z |];
    monad_steps; rewrite ?log_run; monad_steps;
    rewrite ?lib_call_run; monad_steps;
    rewrite <- ?app_assoc; cbn [app];
    (match goal with
     | |- context [load_env_kwargs L ?lp ?e ?c ?w1] =>
         rewrite (load_env_kwargs_world lp e c w1);
         destruct (load_env_kwargs L lp e c w1).1 as [env_kwargs | e0]
     end; [| reflexivity]);
    monad_steps; rewrite lib_call_run; monad_steps;
    rewrite lib_call_run; monad_steps; rewrite log_run; monad_steps;
    destruct (py_in (args_algo args) off_policy_algos);
    cbn [app]; rewrite <- ?app_assoc; reflexivity.
Qed.

(** The calls of a run of [main]: those up to the loading of
    [env_kwargs], and, unless that block raised, the three calls that
    follow and calls of the pipeline. *)
Lemma main_calls (args : Args) (w : World) :
  ∃ rest,
    calls (main L args w).2 = (calls w ++ startup_calls L args ++ rest)%list ∧
    (rest = [] ∨
     ∃ env_kwargs organization repo_name metrics cleanup done,
       rest = (handover_calls L args env_kwargs ++ done)%list ∧
       done `prefix_of`
         pipeline_calls L (loaded_model L args)
           (model_name (args_algo args) (args_env args)) (args_algo args)
           (ALGOS_name L (args_algo args)) (log_path_of L args)
           (hyperparams_of L args) env_kwargs (args_env args) (repo_id args)
           (args_commit_message args)
           (deterministic args (is_atari L (args_env args))) 10 None "hub" 1000
           (negb (args_no_render args))
           (eval_env (pipeline_world L args w env_kwargs))
           organization repo_name metrics cleanup).
Proof.
  rewrite main_run.
  destruct (load_env_kwargs L _ _ _ _).1 as [env_kwargs | e].
  - destruct (package_to_hub_outcome (loaded_model L args)
                (model_name (args_algo args) (args_env args)) (args_algo args)
                (ALGOS_name L (args_algo args)) (log_path_of L args)
                (hyperparams_of L args) env_kwargs (args_env args) (repo_id args)
                (args_commit_message args)
                (deterministic args (is_atari L (args_env args))) 10 None "hub" 1000
                (negb (args_no_render args)) (pipeline_world L args w env_kwargs))
      as (organization & repo_name & metrics & cleanup & done & Hcalls & Hprefix & _).
    exists (handover_calls L args env_kwargs ++ done)%list. split.
    + rewrite Hcalls. unfold pipeline_world, load_world. cbn [calls].
      now rewrite <- !app_assoc.
    + right. exists env_kwargs, organization, repo_name, metrics, cleanup, done.
      split; [reflexivity | exact Hprefix].
  - exists []. split; [| now left].
    unfold load_world. cbn [snd calls]. now rewrite app_nil_r.
Qed.

(** ** Errors of the pipeline and of the entry point *)

Lemma split_length (sep : ascii) (s : string) :
  length (PyStr.split sep s) = S (count_char sep s).
Proof.
  induction s as [| c s IH]; [reflexivity |].
  cbn [PyStr.split count_char].
  destruct (PyStr.split sep s) as [| piece pieces]; [discriminate IH |].
  destruct (Ascii.eqb c sep); cbn in *; lia.
Qed.

(** Unpacking anything but two pieces raises. *)
Lemma unpack2_split_failure (sep : ascii) (s : string) (w : World) :
  count_char sep s ≠ 1%nat →
  unpack2 (PyStr.split sep s) w = (Raise ValueError, w).
Proof.
  intros Hcount.
  destruct (unpack2_run (PyStr.split sep s) w) as [(a & b & Hsplit & _) | ->];
    [| reflexivity].
  exfalso. apply Hcount.
  pose proof (split_length sep s) as Hlen. rewrite Hsplit in Hlen.
  cbn in Hlen. lia.
Qed.

(** What a run of [package_to_hub] comes to when the repository id does
    not split into two pieces. *)
Lemma package_to_hub_split_failure
    (model : Model) (model_name algo_name algo_class_name log_path : string)
    (hyperparams env_kwargs : Dict) (env_id repo_id commit_message : string)
    (is_deterministic : bool) (n_eval_episodes : Z) (token : option string)
    (local_repo_path : string) (video_length : Z) (generate_video : bool)
    (w : World) :
  count_char "/" repo_id ≠ 1%nat →
  package_to_hub L model model_name algo_name algo_class_name log_path
    hyperparams env_kwargs env_id repo_id commit_message is_deterministic
    n_eval_episodes token local_repo_path video_length generate_video w =
  (Raise ValueError,
   {| fs := fs w; eval_env := eval_env w;
      calls := calls w ++ [MsgInfo pipeline_banner] |}).
Proof.
  intros Hcount. unfold package_to_hub. monad_steps.
  rewrite log_run. monad_steps.
  now rewrite (unpack2_split_failure _ _ _ Hcount).
Qed.

(** X1: a repository id that does not hold exactly one slash makes
    [package_to_hub] raise [ValueError] right after its first message: no
    call to the hub is made and the files are as they were. *)
Theorem package_to_hub_bad_repo_id
    (model : Model) (model_name algo_name algo_class_name log_path : string)
    (hyperparams env_kwargs : Dict) (env_id repo_id commit_message : string)
    (is_deterministic : bool) (n_eval_episodes : Z) (token : option string)
    (local_repo_path : string) (video_length : Z) (generate_video : bool)
    (w : World) :
  count_char "/" repo_id ≠ 1%nat →
  package_to_hub L model model_name algo_name algo_class_name log_path
    hyperparams env_kwargs env_id repo_id commit_message is_deterministic
    n_eval_episodes token local_repo_path video_length generate_video w =
  (Raise ValueError,
   {| fs := fs w; eval_env := eval_env w;
      calls := calls w ++ [MsgInfo pipeline_banner] |}).
Proof.
  intros Hcount. unfold package_to_hub. monad_steps.
  rewrite log_run. monad_steps.
  now rewrite (unpack2_split_failure _ _ _ Hcount).
Qed.

(** X2: the block that loads the stored keyword arguments leaves the
    world as it is; it returns whenever [args.yml] is not a regular file;
    for a file it raises [TypeError] exactly when the document is no
    mapping, [KeyError] exactly when the mapping has no [env_kwargs] key;
    and it raises nothing else. *)
Theorem load_env_kwargs_errors
    (log_path env_id : string) (cli : option Dict) (w : World) :
  let out := load_env_kwargs L log_path env_id cli w in
  let args_path := log_path // env_id // "args.yml" in
  out.2 = w ∧
  (is_file (fs w) args_path = false → ∃ env_kwargs, out.1 = Ok env_kwargs) ∧
  (∀ content, fs w !! args_path = Some (File content) →
     (out.1 = Raise TypeError ↔ yaml_load L content = YamlNotMapping) ∧
     (out.1 = Raise KeyError ↔
      ∃ items, yaml_load L content = YamlMapping items ∧
               items !! "env_kwargs" = None)) ∧
  (∀ e, out.1 = Raise e → e = KeyError ∨ e = TypeError).
Proof.
  cbv zeta. split; [| split; [| split]].
  - now rewrite load_env_kwargs_world.
  - unfold load_env_kwargs, is_file. monad_steps.
    destruct (fs w !! (log_path // env_id // "args.yml")) as [[content |] |];
      [discriminate | |]; intros _; destruct cli; eexists; reflexivity.
  - intros content Hfile. unfold load_env_kwargs. monad_steps. rewrite Hfile.
    destruct (yaml_load L content) as [items |].
    + destruct (items !! "env_kwargs") as [[stored |] |] eqn:Hkey.
      * destruct cli; cbn; (split; [split; discriminate |]);
          (split; [discriminate |]); intros (i & [= <-] & Hi); congruence.
      * destruct cli; cbn; (split; [split; discriminate |]);
          (split; [discriminate |]); intros (i & [= <-] & Hi); congruence.
      * cbn. split; [split; discriminate |]. split; [eauto | reflexivity].
    + cbn. split; [split; reflexivity |].
      split; [discriminate |]. intros (i & Hi & _). discriminate Hi.
  - intros e He.
    destruct (load_env_kwargs_run log_path env_id cli w) as [[kw Hrun] | [Hrun | Hrun]];
      rewrite Hrun in He; cbn in He;
      [discriminate He | left | right]; congruence.
Qed.

(** ** Writing the card *)

(** X3: [save_model_card] fails exactly when [README.md] is a directory,
    with [IsADirectoryError], the files untouched and [metadata_save] not
    called; otherwise it returns, whatever was at that path before. *)
Theorem save_model_card_outcome
    (repo_dir card : string) (metadata : Metadata) (w : World) :
  (fs w !! (repo_dir // "README.md") = Some Dir →
   save_model_card L repo_dir card metadata w =
   (Raise IsADirectoryError,
    {| fs := fs w; eval_env := eval_env w;
       calls := calls w ++ [WriteFile (repo_dir // "README.md") card] |})) ∧
  (fs w !! (repo_dir // "README.md") ≠ Some Dir →
   (save_model_card L repo_dir card metadata w).1 = Ok tt ∧
   calls (save_model_card L repo_dir card metadata w).2 =
     (calls w ++ [WriteFile (repo_dir // "README.md") card;
                  MetadataSave (repo_dir // "README.md") metadata])%list).
Proof.
  unfold save_model_card, write_file. monad_steps.
  rewrite log_run. monad_steps. split.
  - intros ->. reflexivity.
  - intros Hnot.
    destruct (fs w !! (repo_dir // "README.md")) as [[content |] |];
      try contradiction; rewrite lib_call_run; monad_steps;
      now rewrite <- app_assoc.
Qed.

(** X4: "Always overwrite README": the files [save_model_card] leaves do
    not depend on what [README.md] held before. *)
Theorem save_model_card_overwrites
    (repo_dir card : string) (metadata : Metadata) (w1 w2 : World) :
  (∀ p, p ≠ repo_dir // "README.md" → fs w1 !! p = fs w2 !! p) →
  fs w1 !! (repo_dir // "README.md") ≠ Some Dir →
  fs w2 !! (repo_dir // "README.md") ≠ Some Dir →
  fs (save_model_card L repo_dir card metadata w1).2 =
  fs (save_model_card L repo_dir card metadata w2).2.
Proof.
  intros Hsame H1 H2.
  assert (Hins : <[repo_dir // "README.md" := File card]> (fs w1) =
                 <[repo_dir // "README.md" := File card]> (fs w2)).
  { apply map_eq. intros p.
    destruct (decide (repo_dir // "README.md" = p)) as [<- | Hne].
    - now rewrite !lookup_insert_eq.
    - rewrite !lookup_insert_ne by exact Hne. apply Hsame. congruence. }
  unfold save_model_card, write_file. monad_steps.
  rewrite !log_run. monad_steps.
  destruct (fs w1 !! (repo_dir // "README.md")) as [[c1 |] |];
    try contradiction;
    destruct (fs w2 !! (repo_dir // "README.md")) as [[c2 |] |];
    try contradiction; rewrite !lib_call_run; monad_steps; now rewrite Hins.
Qed.

(** ** More on the cleanup of the temporary files *)

Lemma glob_complete (dir suffix : string) (files : FS) (p : string) :
  is_Some (files !! p) → glob_match dir suffix p = true →
  In p (glob dir suffix files).
Proof.
  intros [node Hnode] Hmatch. unfold glob. apply filter_In.
  split; [| exact Hmatch]. apply in_map_iff. exists (p, node).
  split; [reflexivity |]. now apply list_elem_of_In, elem_of_map_to_list.
Qed.

(** The files the cleanup leaves: [test.mp4] goes when it is a file, then
    the first entry listed for [*.meta.json] goes when it is a file. *)
Lemma cleanup_replay_files_fs (w : World) :
  let files1 :=
    if is_file (fs w) "test.mp4" then delete "test.mp4" (fs w) else fs w in
  fs (cleanup_replay_files w).2 =
  match glob "" ".meta.json" files1 with
  | first :: _ =>
      match files1 !! first with
      | Some (File _) => delete first files1
      | _ => files1
      end
  | [] => files1
  end.
Proof.
  cbv zeta. unfold cleanup_replay_files. monad_steps.
  assert (Hsecond : ∀ w1 : World,
    fs (match glob "" ".meta.json" (fs w1) with
        | [] => λ w0 : World, (Ok (), w0)
        | first :: _ => unlink first
        end w1).2 =
    match glob "" ".meta.json" (fs w1) with
    | first :: _ =>
        match fs w1 !! first with
        | Some (File _) => delete first (fs w1)
        | _ => fs w1
        end
    | [] => fs w1
    end).
  { intros w1. destruct (glob "" ".meta.json" (fs w1)) as [| first rest];
      [reflexivity |].
    pose proof (unlink_run first w1) as Hrun.
    destruct (fs w1 !! first) as [[content |] |]; now rewrite Hrun. }
  unfold is_file.
  destruct (fs w !! "test.mp4") as [[content |] |] eqn:Hvideo.
  - pose proof (unlink_run "test.mp4" w) as Hrun. rewrite Hvideo in Hrun.
    rewrite Hrun. monad_steps.
    exact (Hsecond {| fs := delete "test.mp4" (fs w); eval_env := eval_env w;
                      calls := calls w ++ [Unlink "test.mp4"] |}).
  - monad_steps. exact (Hsecond w).
  - monad_steps. exact (Hsecond w).
Qed.

(** X5: once the cleanup is through, whether it returned or raised,
    [test.mp4] is not a file any more. *)
Theorem cleanup_removes_video (w : World) :
  is_file (fs (cleanup_replay_files w).2) "test.mp4" = false.
Proof.
  rewrite cleanup_replay_files_fs. cbv zeta.
  set (files1 := if is_file (fs w) "test.mp4"
                 then delete "test.mp4" (fs w) else fs w).
  assert (H1 : is_file files1 "test.mp4" = false).
  { subst files1. destruct (is_file (fs w) "test.mp4") eqn:Hf; [| exact Hf].
    unfold is_file. now rewrite lookup_delete_eq. }
  destruct (glob "" ".meta.json" files1) as [| first rest]; [exact H1 |].
  destruct (files1 !! first) as [[content |] |]; try exact H1.
  unfold is_file in *. destruct (decide (first = "test.mp4")) as [-> | Hne].
  - now rewrite lookup_delete_eq.
  - now rewrite lookup_delete_ne.
Qed.

(** X6: the cleanup touches nothing but [test.mp4] and at most one entry
    matching [*.meta.json]: every other path keeps what it had. *)
Theorem cleanup_frame (w : World) :
  (∀ p, p ≠ "test.mp4" → glob_match "" ".meta.json" p = false →
        fs (cleanup_replay_files w).2 !! p = fs w !! p) ∧
  (∃ removed, ∀ p, p ≠ "test.mp4" → p ≠ removed →
        fs (cleanup_replay_files w).2 !! p = fs w !! p).
Proof.
  rewrite cleanup_replay_files_fs. cbv zeta.
  set (files1 := if is_file (fs w) "test.mp4"
                 then delete "test.mp4" (fs w) else fs w).
  assert (H1 : ∀ p, p ≠ "test.mp4" → files1 !! p = fs w !! p).
  { intros p Hp. subst files1. destruct (is_file (fs w) "test.mp4");
      [now rewrite lookup_delete_ne | reflexivity]. }
  destruct (glob "" ".meta.json" files1) as [| first rest] eqn:Hglob.
  - split; [auto |]. exists "". auto.
  - destruct (glob_elem "" ".meta.json" files1 first) as [_ Hmatch].
    { rewrite Hglob. now left. }
    split.
    + intros p Hp Hno.
      destruct (files1 !! first) as [[content |] |]; try (now apply H1).
      rewrite lookup_delete_ne; [now apply H1 | congruence].
    + exists first. intros p Hp Hfirst.
      destruct (files1 !! first) as [[content |] |]; try (now apply H1).
      rewrite lookup_delete_ne; [now apply H1 | congruence].
Qed.

(** X7: the guard on the metadata files checks that there is an entry, not
    that it is a file: with no [test.mp4] and only directories matching
    [*.meta.json], the cleanup raises [IsADirectoryError] and deletes
    nothing. *)
Theorem cleanup_raises_on_directory (w : World) (p : string) :
  is_file (fs w) "test.mp4" = false →
  glob_match "" ".meta.json" p = true →
  fs w !! p = Some Dir →
  (∀ q content, glob_match "" ".meta.json" q = true →
                fs w !! q ≠ Some (File content)) →
  ∃ first,
    fs w !! first = Some Dir ∧
    cleanup_replay_files w =
    (Raise IsADirectoryError,
     {| fs := fs w; eval_env := eval_env w;
        calls := calls w ++ [Unlink first] |}).
Proof.
  intros Hvideo Hmatch Hdir Hnofile.
  unfold cleanup_replay_files. monad_steps. rewrite Hvideo. monad_steps.
  destruct (glob "" ".meta.json" (fs w)) as [| first rest] eqn:Hglob.
  - exfalso. assert (Hin : In p (glob "" ".meta.json" (fs w)))
      by (apply glob_complete; [now rewrite Hdir | exact Hmatch]).
    now rewrite Hglob in Hin.
  - destruct (glob_elem "" ".meta.json" (fs w) first) as [[node Hnode] Hm].
    { rewrite Hglob. now left. }
    exists first. destruct node as [content |].
    + exfalso. exact (Hnofile first content Hm Hnode).
    + split; [exact Hnode |].
      pose proof (unlink_run first w) as Hrun. now rewrite Hnode in Hrun.
Qed.

(** ** Failed runs *)



(** ** Counting slashes *)

Lemma count_char_app (c : ascii) (a b : string) :
  count_char c (a +:+ b) = (count_char c a + count_char c b)%nat.
Proof.
  induction a as [| x a IH]; [reflexivity |].
  change (String x a +:+ b) with (String x (a +:+ b)).
  cbn [count_char]. rewrite IH. lia.
Qed.

Lemma count_char_replace (old new : ascii) (s : string) :
  old ≠ new → count_char old (PyStr.replace old new s) = 0%nat.
Proof.
  intros Hne. induction s as [| x s IH]; [reflexivity |].
  cbn [PyStr.replace count_char]. rewrite IH.
  destruct (Ascii.eqb x old) eqn:Hx.
  - destruct (Ascii.eqb new old) eqn:Hn; [| reflexivity].
    apply Ascii.eqb_eq in Hn. congruence.
  - now rewrite Hx.
Qed.

Lemma count_char_repo_id (args : Args) :
  count_char "/" (repo_id args) = S (count_char "/" (args_organization args)).
Proof.
  unfold repo_id. rewrite !count_char_app, count_char_replace by discriminate.
  cbn. lia.
Qed.

End Operations.

Lemma cleanup_safe_when_files_absent_witness :
  cleanup_replay_files {| fs := example_fs; eval_env := example_env; calls := [] |} =
  (Ok tt, {| fs := example_fs; eval_env := example_env; calls := [] |}).
Proof.
  apply (proj1 (cleanup_safe_when_files_absent
                  {| fs := example_fs; eval_env := example_env; calls := [] |})).
  - vm_compute. reflexivity.
  - intros p Hmatch. cbn [fs].
    destruct (example_fs !! p) as [node |] eqn:Hnode; [| reflexivity].
    apply elem_of_map_to_list in Hnode.
    assert (Hlist : map_to_list example_fs =
      [("logs/ppo/CartPole-v1/config.yml", File "n_envs: 4");
       ("logs/ppo/CartPole-v1/args.yml",
        File "env_kwargs: {difficulty: 1, mode: easy}");
       ("logs/ppo/0.monitor.csv", File "r,l,t")])
      by (vm_compute; reflexivity).
    rewrite Hlist in Hnode.
    repeat (apply elem_of_cons in Hnode as [Hnode | Hnode];
            [injection Hnode as -> _; vm_compute in Hmatch; discriminate Hmatch |]).
    now apply elem_of_nil in Hnode.
Defined.

(** ** Repository id *)

Lemma replace_length old new s :
  String.length (PyStr.replace old new s) = String.length s.
Proof. induction s as [|c s IH]; simpl; [reflexivity | now rewrite IH]. Qed.

Lemma replace_get old new s i :
  String.get i (PyStr.replace old new s) =
  (fun c => if Ascii.eqb c old then new else c) <$> String.get i s.
Proof.
  revert i. induction s as [|c s IH]; intros i; simpl; [reflexivity |].
  destruct i as [|i]; [reflexivity | apply IH].
Qed.

(** ** Number of environments *)

Lemma py_in_elem_of (x : string) (xs : list string) :
  py_in x xs = true ↔ x ∈ xs.
Proof.
  unfold py_in. rewrite existsb_exists, list_elem_of_In. split.
  - intros (y & Hy & Heq). apply String.eqb_eq in Heq. now subst.
  - intros Hin. exists x. split; [assumption | apply String.eqb_refl].
Qed.

(** ** Keyword arguments of the environment *)

Lemma dict_update_lookup (d other : Dict) (key : string) :
  dict_update d other !! key =
  match other !! key with
  | Some value => Some value
  | None => d !! key
  end.
Proof.
  unfold dict_update.
  apply (map_fold_weak_ind
           (fun (r : Dict) (m : Dict) =>
              r !! key = match m !! key with
                         | Some value => Some value
                         | None => d !! key
                         end)).
  - now rewrite lookup_empty.
  - intros i x m r _ IH. destruct (decide (i = key)) as [-> | Hne].
    + now rewrite !lookup_insert_eq.
    + now rewrite !lookup_insert_ne.
Qed.

(** C10: the effective keyword arguments start from the mapping stored
    under [env_kwargs] in [args.yml] (empty when the file is absent or the
    stored value is [None]) and are overridden by [--env-kwargs]: a key given
    on the command line has the command line's value, any other key keeps
    what the file stores for it. *)
Theorem env_kwargs_resolution
    (L : Lib) (log_path env_id : string) (cli_env_kwargs : option Dict)
    (w : World) (base : Dict) :
  (is_file (fs w) (log_path // env_id // "args.yml") = false ∧ base = ∅) ∨
  (∃ content stored,
     fs w !! (log_path // env_id // "args.yml") = Some (File content) ∧
     yaml_load L content !! "env_kwargs" = Some stored ∧
     base = default ∅ stored) →
  ∃ env_kwargs,
    load_env_kwargs L log_path env_id cli_env_kwargs w = (Ok env_kwargs, w) ∧
    ∀ key,
      (∀ value, cli_value cli_env_kwargs key = Some value →
                env_kwargs !! key = Some value) ∧
      (cli_value cli_env_kwargs key = None →
       env_kwargs !! key = base !! key).
Proof.
  intros Hfile.
  assert (Hbase : ∃ w',
    load_env_kwargs L log_path env_id cli_env_kwargs w =
    (Ok (match cli_env_kwargs with
         | Some given => dict_update base given
         | None => base
         end), w') ∧ w' = w).
  { unfold load_env_kwargs, mbind, M_bind, get_fs, mret, M_ret, is_file in *.
    destruct Hfile as [[Hnot ->] | (content & stored & Hlook & Hyaml & ->)].
    - destruct (fs w !! (log_path // env_id // "args.yml")) as [[c |] |] eqn:E;
        try discriminate Hnot;
        destruct cli_env_kwargs; eexists; split; reflexivity.
    - rewrite Hlook. unfold lookup, YamlDoc_lookup in Hyaml.
      destruct (yaml_load L content) as [items |]; [| discriminate Hyaml].
      rewrite Hyaml.
      destruct stored, cli_env_kwargs; eexists; split; reflexivity. }
  destruct Hbase as (w' & Hrun & ->).
  eexists. split; [exact Hrun |].
  intros key. unfold cli_value.
  destruct cli_env_kwargs as [given |]; simpl.
  - rewrite dict_update_lookup. split.
    + intros value Hv. now rewrite Hv.
    + intros Hv. now rewrite Hv.
  - split; [discriminate | reflexivity].
Qed.

Lemma env_kwargs_resolution_witness :
  ∃ env_kwargs,
    load_env_kwargs example_lib "logs/ppo" "CartPole-v1"
      (Some {[ "mode" := PyStr "hard" ]})
      {| fs := example_fs; eval_env := example_env; calls := [] |} =
    (Ok env_kwargs, {| fs := example_fs; eval_env := example_env; calls := [] |}) ∧
    ∀ key,
      (∀ value, cli_value (Some {[ "mode" := PyStr "hard" ]}) key = Some value →
                env_kwargs !! key = Some value) ∧
      (cli_value (Some {[ "mode" := PyStr "hard" ]}) key = None →
       env_kwargs !! key = example_env_kwargs !! key).
Proof.
  apply (env_kwargs_resolution example_lib "logs/ppo" "CartPole-v1"
           (Some {[ "mode" := PyStr "hard" ]})
           {| fs := example_fs; eval_env := example_env; calls := [] |}
           example_env_kwargs).
  right. exists "env_kwargs: {difficulty: 1, mode: easy}", (Some example_env_kwargs).
  split; [vm_compute; reflexivity |]. split; reflexivity.
Defined.

(** ** Order of the calls in a log *)

Section Order.

Context (P Q : Call → Prop).

Lemma each_after_prefix (tr tr' : list Call) :
  tr' `prefix_of` tr → each_after P Q tr → each_after P Q tr'.
Proof.
  intros [k ->] H i c Hi Hq.
  destruct (H i c) as (j & d & Hj & Hd & Hp); [| exact Hq |].
  - now apply lookup_app_l_Some.
  - exists j, d. split; [exact Hj |]. split; [| exact Hp].
    apply lookup_lt_Some in Hi.
    rewrite lookup_app_l in Hd by lia. exact Hd.
Qed.

Lemma each_after_here (d : Call) (l : list Call) :
  P d → ¬ Q d → each_after P Q (d :: l).
Proof.
  intros Hp Hq [| i] c Hi Hc.
  - injection Hi as <-. contradiction.
  - exists 0%nat, d. split; [lia |]. split; [reflexivity | exact Hp].
Qed.

Lemma each_after_skip (c : Call) (l : list Call) :
  ¬ Q c → each_after P Q l → each_after P Q (c :: l).
Proof.
  intros Hq H [| i] c' Hi Hc.
  - injection Hi as <-. contradiction.
  - destruct (H i c' Hi Hc) as (j & d & Hj & Hd & Hp).
    exists (S j), d. split; [lia |]. split; [exact Hd | exact Hp].
Qed.

Lemma each_after_app_skip (l1 l2 : list Call) :
  Forall (fun c => ¬ Q c) l1 → each_after P Q l2 → each_after P Q (l1 ++ l2).
Proof.
  induction 1 as [| c l1 Hc _ IH]; intros H; [exact H |].
  apply each_after_skip; [exact Hc | now apply IH].
Qed.

End Order.

Lemma unlink_calls_kind (paths : list string) (c : Call) :
  c ∈ map Unlink paths → ∃ p, c = Unlink p.
Proof.
  intros Hin. apply list_elem_of_In, in_map_iff in Hin as (p & <- & _).
  now exists p.
Qed.

Lemma vec_normalize_calls_kind (env : VecEnv) (dir : string) (c : Call) :
  c ∈ vec_normalize_calls env dir →
  ∃ attrs, unwrap_vec_normalize env = Some attrs ∧
           (c = VecNormalizeSave attrs (dir // "vec_normalize.pkl") ∨
            c = SetTraining false ∨ c = SetNormReward false).
Proof.
  unfold vec_normalize_calls.
  destruct (unwrap_vec_normalize env) as [attrs |]; intros Hin.
  - exists attrs. split; [reflexivity |].
    repeat (apply elem_of_cons in Hin as [Hin | Hin]; [auto |]).
    now apply elem_of_nil in Hin.
  - now apply elem_of_nil in Hin.
Qed.

(** A call is not of the kind looked for. *)
Ltac other_kind :=
  cbn; first [ tauto | intuition congruence | intros (? & ? & [=]) ].

(** The calls of one kind are absent from a segment of the log. *)
Ltac no_such_call :=
  lazymatch goal with
  | |- Forall _ (vec_normalize_calls _ _) =>
      apply Forall_forall;
      intros ? [? [_ [-> | [-> | ->]]]]%vec_normalize_calls_kind; other_kind
  | |- Forall _ (map Unlink _) =>
      apply Forall_forall; intros ? [? ->]%unlink_calls_kind; other_kind
  | |- Forall _ _ => repeat (constructor; [other_kind |]); constructor
  | |- ¬ _ => other_kind
  end.

(** Walks down a log to the call that comes first. *)
Ltac find_first :=
  cbn [app];
  repeat first
    [ apply each_after_here; [ solve [ reflexivity | exact I ] | no_such_call ]
    | apply each_after_skip; [ no_such_call | ]
    | apply each_after_app_skip; [ no_such_call | ] ].

(** Membership in a log put together from segments. *)
Ltac elem_cases H :=
  repeat match type of H with
         | _ ∈ (_ ++ _)%list => apply elem_of_app in H as [H | H]
         | _ ∈ (_ :: _)%list => apply elem_of_cons in H as [H | H]
         | _ ∈ []%list => apply elem_of_nil in H; contradiction
         | _ ∈ (if ?b then _ else _) => destruct b
         | _ ∈ vec_normalize_calls _ _ =>
             apply vec_normalize_calls_kind in H as (? & ? & [H | [H | H]])
         | _ ∈ map Unlink _ => apply unlink_calls_kind in H as [? H]
         end.

Lemma unwrap_update_vec_normalize f (env : VecEnv) :
  unwrap_vec_normalize (update_vec_normalize f env) =
  f <$> unwrap_vec_normalize env.
Proof. induction env as [| name venv IH | attrs venv _]; cbn; auto. Qed.

Lemma unwrap_test_env (env : VecEnv) :
  unwrap_vec_normalize (test_env env) =
  (fun attrs => set_norm_reward false (set_training false attrs)) <$>
    unwrap_vec_normalize env.
Proof.
  unfold test_env. destruct (unwrap_vec_normalize env) as [attrs |] eqn:H.
  - now rewrite !unwrap_update_vec_normalize, H.
  - now rewrite H.
Qed.

Lemma generate_model_card_metadata pf algo cls org env_id mean std hp kw :
  (generate_model_card pf algo cls org env_id mean std hp kw).2 =
  generate_metadata cls env_id mean std.
Proof. reflexivity. Qed.

Lemma generate_metadata_rewards (model_name env_id : string) (mean std : float) :
  generate_metadata model_name env_id mean std !! "mean_reward" =
    Some (MetaFloat mean) ∧
  generate_metadata model_name env_id mean std !! "std_reward" =
    Some (MetaFloat std).
Proof. split; reflexivity. Qed.

(** ** The packaging pipeline *)

Section Pipeline.

Context (L : Lib).
Context (model : Model) (model_name algo_name algo_class_name log_path : string).
Context (hyperparams env_kwargs : Dict) (env_id repo_id commit_message : string).
Context (is_deterministic : bool) (n_eval_episodes : Z) (token : option string).
Context (local_repo_path : string) (video_length : Z) (generate_video : bool).
Context (files : FS) (env : VecEnv).

#[local] Abbreviation out :=
  (run (package_to_hub L model model_name algo_name algo_class_name log_path
          hyperparams env_kwargs env_id repo_id commit_message is_deterministic
          n_eval_episodes token local_repo_path video_length generate_video)
       files env).

#[local] Abbreviation expected organization repo_name metrics cleanup :=
  (pipeline_calls L model model_name algo_name algo_class_name log_path
     hyperparams env_kwargs env_id repo_id commit_message is_deterministic
     n_eval_episodes token local_repo_path video_length generate_video env
     organization repo_name metrics cleanup).

Lemma expected_card_rewards organization repo_name metrics cleanup m s :
  GenerateModelCard m s ∈ expected organization repo_name metrics cleanup →
  (m, s) = evaluate_agent L model (test_env env) n_eval_episodes
             is_deterministic (local_repo_path // repo_name).
Proof.
  unfold pipeline_calls, pipeline_rewards. cbv zeta. intros H.
  elem_cases H; try discriminate H.
  injection H as -> ->. now destruct (evaluate_agent _ _ _ _ _ _).
Qed.

(** C5: in the log of every run, and at every point of it, an evaluation
    comes after the model was saved into the local clone, the generation of
    the card comes after the evaluation and is given the rewards the
    evaluation returned, and with the video enabled it also comes after the
    replay; a run that returns has generated the card. *)
Theorem pipeline_order :
  ∃ repo_local_path,
    let evaluation :=
      EvaluateAgent model (test_env env) n_eval_episodes is_deterministic
                    repo_local_path in
    (∀ tr, tr `prefix_of` calls out.2 →
       each_after (eq (ModelSave model (repo_local_path // model_name)))
                  is_evaluate tr ∧
       each_after (eq evaluation) is_generate_card tr ∧
       (∀ mean_reward std_reward,
          GenerateModelCard mean_reward std_reward ∈ tr →
          (mean_reward, std_reward) =
          evaluate_agent L model (test_env env) n_eval_episodes
                         is_deterministic repo_local_path) ∧
       (generate_video = true → each_after is_replay is_generate_card tr)) ∧
    (∀ url, out.1 = Ok url →
       ∃ mean_reward std_reward,
         GenerateModelCard mean_reward std_reward ∈ calls out.2).
Proof.
  destruct (package_to_hub_calls L model model_name algo_name algo_class_name
              log_path hyperparams env_kwargs env_id repo_id commit_message
              is_deterministic n_eval_episodes token local_repo_path
              video_length generate_video files env)
    as (organization & repo_name & metrics & cleanup & Hprefix & _ & Hfull).
  exists (local_repo_path // repo_name). cbv zeta. split.
  - intros tr Htr.
    assert (Hexp : tr `prefix_of` expected organization repo_name metrics cleanup)
      by (etransitivity; eassumption).
    split; [| split; [| split]].
    + apply (each_after_prefix _ _ _ _ Hexp).
      unfold pipeline_calls. find_first.
    + apply (each_after_prefix _ _ _ _ Hexp).
      unfold pipeline_calls. find_first.
    + intros m s Hin. apply (expected_card_rewards organization repo_name metrics cleanup).
      destruct Hexp as [k ->]. apply elem_of_app. now left.
    + intros ->. apply (each_after_prefix _ _ _ _ Hexp).
      unfold pipeline_calls. find_first.
  - intros url Hok. destruct (Hfull url Hok) as (_ & -> & _).
    eexists _, _. unfold pipeline_calls.
    do 4 (apply elem_of_app; right). apply elem_of_cons. now left.
Qed.

(** C9: with a [VecNormalize] wrapper in the evaluation environment, each
    assignment of its flags comes after its statistics, still with the
    flags it had, went to [vec_normalize.pkl]; both flags are set to
    [False], before any evaluation, which sees them so; without a wrapper
    nothing is saved, no flag is assigned and the evaluation gets the
    environment as it was. *)
Theorem vec_normalize_handling :
  ∃ repo_local_path,
    (∀ tr, tr `prefix_of` calls out.2 →
       (∀ attrs, unwrap_vec_normalize env = Some attrs →
          each_after
            (eq (VecNormalizeSave attrs (repo_local_path // "vec_normalize.pkl")))
            is_flag_assignment tr ∧
          (∀ c, c ∈ tr → is_flag_assignment c →
                c = SetTraining false ∨ c = SetNormReward false) ∧
          each_after (eq (SetTraining false)) is_evaluate tr ∧
          each_after (eq (SetNormReward false)) is_evaluate tr ∧
          (∀ m e k d p, EvaluateAgent m e k d p ∈ tr →
             ∃ a, unwrap_vec_normalize e = Some a ∧
                  training a = false ∧ norm_reward a = false ∧
                  running_stats a = running_stats attrs)) ∧
       (unwrap_vec_normalize env = None →
          (∀ c, c ∈ tr → ¬ is_vec_normalize_save c ∧ ¬ is_flag_assignment c) ∧
          (∀ m e k d p, EvaluateAgent m e k d p ∈ tr → e = env))) ∧
    (∀ url, out.1 = Ok url →
       (∀ attrs, unwrap_vec_normalize env = Some attrs →
          VecNormalizeSave attrs (repo_local_path // "vec_normalize.pkl")
            ∈ calls out.2 ∧
          SetTraining false ∈ calls out.2 ∧
          SetNormReward false ∈ calls out.2 ∧
          unwrap_vec_normalize (eval_env out.2) =
            Some {| training := false; norm_reward := false;
                    running_stats := running_stats attrs |}) ∧
       (unwrap_vec_normalize env = None → eval_env out.2 = env)).
Proof.
  destruct (package_to_hub_calls L model model_name algo_name algo_class_name
              log_path hyperparams env_kwargs env_id repo_id commit_message
              is_deterministic n_eval_episodes token local_repo_path
              video_length generate_video files env)
    as (organization & repo_name & metrics & cleanup & Hprefix & _ & Hfull).
  exists (local_repo_path // repo_name). split.
  - intros tr Htr.
    assert (Hexp : tr `prefix_of` expected organization repo_name metrics cleanup)
      by (etransitivity; eassumption).
    assert (Hin : ∀ c, c ∈ tr → c ∈ expected organization repo_name metrics cleanup).
    { intros c Hc. destruct Hexp as [k ->]. apply elem_of_app. now left. }
    split.
    + intros attrs Hattrs. repeat split.
      * apply (each_after_prefix _ _ _ _ Hexp).
        unfold pipeline_calls, vec_normalize_calls. rewrite Hattrs.
        destruct generate_video; find_first.
      * intros c Hc Hflag. apply Hin in Hc.
        unfold pipeline_calls in Hc. cbv zeta in Hc.
        elem_cases Hc; subst c; cbn in Hflag; try contradiction; auto.
      * apply (each_after_prefix _ _ _ _ Hexp).
        unfold pipeline_calls, vec_normalize_calls. rewrite Hattrs. find_first.
      * apply (each_after_prefix _ _ _ _ Hexp).
        unfold pipeline_calls, vec_normalize_calls. rewrite Hattrs. find_first.
      * intros m e k d p He. apply Hin in He.
        unfold pipeline_calls in He. cbv zeta in He.
        elem_cases He; try discriminate He. injection He as -> -> -> -> ->.
        rewrite unwrap_test_env, Hattrs. cbn. eauto.
    + intros Hnone. split.
      * intros c Hc. apply Hin in Hc.
        unfold pipeline_calls in Hc. cbv zeta in Hc.
        elem_cases Hc; try congruence; subst c; cbn; tauto.
      * intros m e k d p He. apply Hin in He.
        unfold pipeline_calls in He. cbv zeta in He.
        elem_cases He; try congruence. injection He as -> -> -> -> ->.
        unfold test_env. now rewrite Hnone.
  - intros url Hok. destruct (Hfull url Hok) as (_ & -> & -> & _). split.
    + intros attrs Hattrs.
      unfold pipeline_calls, vec_normalize_calls. rewrite Hattrs. cbv zeta.
      repeat split.
      * apply elem_of_app. right. apply elem_of_app. left. repeat constructor.
      * apply elem_of_app. right. apply elem_of_app. left. repeat constructor.
      * apply elem_of_app. right. apply elem_of_app. left. repeat constructor.
      * now rewrite unwrap_test_env, Hattrs.
    + intros Hnone. unfold test_env. now rewrite Hnone.
Qed.

(** C7: the metadata [generate_model_card] returns holds the mean and the
    standard deviation of the reward it was given; in a run it is given
    the rewards the evaluation returned, so the metadata saved with the card
    holds those. *)
Theorem metadata_contains_rewards :
  (∀ pf algo cls org (mean_reward std_reward : float) hp kw,
     let metadata :=
       (generate_model_card pf algo cls org env_id mean_reward std_reward hp kw).2 in
     metadata !! "mean_reward" = Some (MetaFloat mean_reward) ∧
     metadata !! "std_reward" = Some (MetaFloat std_reward)) ∧
  (∀ path metadata,
     MetadataSave path metadata ∈ calls out.2 →
     ∃ test_env repo_local_path,
       EvaluateAgent model test_env n_eval_episodes is_deterministic
                     repo_local_path ∈ calls out.2 ∧
       let rewards :=
         evaluate_agent L model test_env n_eval_episodes is_deterministic
                        repo_local_path in
       metadata !! "mean_reward" = Some (MetaFloat rewards.1) ∧
       metadata !! "std_reward" = Some (MetaFloat rewards.2)).
Proof.
  split.
  - intros pf algo cls org mean_reward std_reward hp kw. cbv zeta.
    rewrite generate_model_card_metadata. apply generate_metadata_rewards.
  - destruct (package_to_hub_calls L model model_name algo_name algo_class_name
                log_path hyperparams env_kwargs env_id repo_id commit_message
                is_deterministic n_eval_episodes token local_repo_path
                video_length generate_video files env)
      as (organization & repo_name & metrics & cleanup & Hprefix & _ & _).
    intros path metadata Hin.
    exists (test_env env), (local_repo_path // repo_name).
    assert (Hall : calls out.2 `prefix_of`
                   expected organization repo_name metrics cleanup) by exact Hprefix.
    assert (Hmeta : metadata =
      (pipeline_card L model algo_name algo_class_name hyperparams env_kwargs
         env_id is_deterministic n_eval_episodes (local_repo_path // repo_name)
         env organization).2).
    { destruct Hall as [k Hk]. 
      assert (Hin' : MetadataSave path metadata ∈
                     expected organization repo_name metrics cleanup)
        by (rewrite Hk; apply elem_of_app; now left).
      unfold pipeline_calls in Hin'. cbv zeta in Hin'.
      elem_cases Hin'; try discriminate Hin';
        injection Hin' as _ Hmeta; exact Hmeta. }
    split.
    + (* the evaluation is in the log, before the metadata was saved *)
      apply list_elem_of_lookup in Hin as [i Hi].
      assert (Hafter : each_after
                (eq (EvaluateAgent model (test_env env) n_eval_episodes
                       is_deterministic (local_repo_path // repo_name)))
                (fun c => ∃ p md, c = MetadataSave p md) (calls out.2)).
      { apply (each_after_prefix _ _ _ _ Hall).
        unfold pipeline_calls. find_first. }
      destruct (Hafter i _ Hi (ex_intro _ path (ex_intro _ metadata eq_refl)))
        as (j & d & _ & Hj & <-).
      eapply list_elem_of_lookup_2. exact Hj.
    + subst metadata. unfold pipeline_card, pipeline_rewards. cbv zeta.
      rewrite generate_model_card_metadata. apply generate_metadata_rewards.
Qed.

(** What [package_to_hub_outcome] gives for a run from an empty log. *)
Lemma out_outcome :
  ∃ organization repo_name metrics cleanup,
    calls out.2 `prefix_of` expected organization repo_name metrics cleanup ∧
    (∀ o r, PyStr.split "/" repo_id = [o; r] → o = organization ∧ r = repo_name) ∧
    (∀ e, out.1 = Raise e →
       Forall (fun c => ¬ is_push c ∧ ¬ is_metadata_save c) (calls out.2)) ∧
    (∀ url, out.1 = Ok url →
       PyStr.split "/" repo_id = [organization; repo_name] ∧
       ∃ w_card w_saved,
         let card :=
           pipeline_card L model algo_name algo_class_name hyperparams
             env_kwargs env_id is_deterministic n_eval_episodes
             (local_repo_path // repo_name) env organization in
         save_model_card L (local_repo_path // repo_name) card.1 card.2 w_card =
           (Ok tt, w_saved) ∧
         out.2 =
           {| fs := lib_fs L (PushToHub commit_message) (fs w_saved);
              eval_env := eval_env w_saved;
              calls := calls w_saved ++
                [MsgInfo ("Pushing repo " +:+ repo_name +:+
                          " to the Hugging Face Hub");
                 PushToHub commit_message;
                 MsgInfo ("Your model is pushed to the hub. You can view your model here: "
                          +:+ url)] |}).
Proof.
  destruct (package_to_hub_outcome L model model_name algo_name algo_class_name
              log_path hyperparams env_kwargs env_id repo_id commit_message
              is_deterministic n_eval_episodes token local_repo_path
              video_length generate_video
              {| fs := files; eval_env := env; calls := [] |})
    as (organization & repo_name & metrics & cleanup & done & Hcalls & Hprefix &
        Hsplit & Hraise & Hok).
  cbn [calls eval_env app] in Hcalls, Hprefix, Hok.
  exists organization, repo_name, metrics, cleanup. unfold run.
  rewrite Hcalls. split; [exact Hprefix |]. split; [exact Hsplit |].
  split; [exact Hraise |].
  intros url Hurl. destruct (Hok url Hurl) as (Hpieces & _ & Hcard).
  split; [exact Hpieces | exact Hcard].
Qed.

(** C8: the card is the Markdown and the metadata, which
    [save_model_card] puts into [README.md] one after the other.  A run
    that raises has not got through [save_model_card].  In a run that
    returns, [save_model_card] ran and returned, what follows it is two
    messages and the push, and the files at the end are the files it left,
    passed through the push: the push leaving [README.md] alone, the file
    ends with the content [save_model_card] gave it. *)
Theorem readme_settled_by_save_model_card :
  (∀ e, out.1 = Raise e → ∀ c, c ∈ calls out.2 → ¬ is_metadata_save c) ∧
  (∀ url, out.1 = Ok url →
     ∃ organization repo_name w_card w_saved,
       PyStr.split "/" repo_id = [organization; repo_name] ∧
       let readme := local_repo_path // repo_name // "README.md" in
       let card :=
         pipeline_card L model algo_name algo_class_name hyperparams env_kwargs
           env_id is_deterministic n_eval_episodes (local_repo_path // repo_name)
           env organization in
       let after :=
         [MsgInfo ("Pushing repo " +:+ repo_name +:+ " to the Hugging Face Hub");
          PushToHub commit_message;
          MsgInfo ("Your model is pushed to the hub. You can view your model here: "
                   +:+ url)] in
       save_model_card L (local_repo_path // repo_name) card.1 card.2 w_card =
         (Ok tt, w_saved) ∧
       calls w_saved =
         (calls w_card ++ [WriteFile readme card.1; MetadataSave readme card.2])%list ∧
       out.2 =
         {| fs := lib_fs L (PushToHub commit_message) (fs w_saved);
            eval_env := eval_env w_saved;
            calls := calls w_saved ++ after |} ∧
       ((∀ files', lib_fs L (PushToHub commit_message) files' !! readme =
                   files' !! readme) →
        fs out.2 !! readme = fs w_saved !! readme)).
Proof.
  destruct out_outcome
    as (organization & repo_name & metrics & cleanup & _ & _ & Hraise & Hok).
  split.
  - intros e He c Hc. specialize (Hraise e He).
    rewrite Forall_forall in Hraise. exact (proj2 (Hraise c Hc)).
  - intros url Hurl.
    destruct (Hok url Hurl) as (Hsplit & w_card & w_saved & Hsaved & Hout).
    cbv zeta in Hsaved. exists organization, repo_name, w_card, w_saved.
    split; [exact Hsplit |]. cbv zeta.
    split; [exact Hsaved |]. split; [| split; [exact Hout |]].
    + destruct (save_model_card_run L (local_repo_path // repo_name)
                  (pipeline_card L model algo_name algo_class_name hyperparams
                     env_kwargs env_id is_deterministic n_eval_episodes
                     (local_repo_path // repo_name) env organization).1
                  (pipeline_card L model algo_name algo_class_name hyperparams
                     env_kwargs env_id is_deterministic n_eval_episodes
                     (local_repo_path // repo_name) env organization).2
                  w_card) as [Hrun | Hrun];
        rewrite Hrun in Hsaved; [| discriminate Hsaved].
      injection Hsaved as <-. reflexivity.
    + intros Hpush. rewrite Hout. cbn [fs]. apply Hpush.
Qed.

Lemma out_calls_expected organization repo_name metrics cleanup c :
  calls out.2 `prefix_of` expected organization repo_name metrics cleanup →
  c ∈ calls out.2 → c ∈ expected organization repo_name metrics cleanup.
Proof. intros [k ->] Hc. apply elem_of_app. now left. Qed.


(** X12: with the video disabled no replay is recorded and no file is
    deleted. *)
Theorem no_video_no_deletion :
  generate_video = false →
  ∀ c, c ∈ calls out.2 → ¬ is_replay c ∧ ¬ is_unlink c.
Proof.
  destruct (package_to_hub_calls L model model_name algo_name algo_class_name
              log_path hyperparams env_kwargs env_id repo_id commit_message
              is_deterministic n_eval_episodes token local_repo_path
              video_length generate_video files env)
    as (organization & repo_name & metrics & cleanup & Hprefix & _ & _).
  intros Hvideo c Hc.
  apply (out_calls_expected _ _ _ _ _ Hprefix) in Hc.
  unfold pipeline_calls in Hc. cbv zeta in Hc. rewrite Hvideo in Hc.
  elem_cases Hc; subst c; cbn; tauto.
Qed.

Lemma path_join_zip (a b : string) :
  a // (b +:+ ".zip") = (a // b) +:+ ".zip".
Proof.
  unfold path_join.
  assert (Hstart : PyStr.startswith "/" (b +:+ ".zip") = PyStr.startswith "/" b).
  { destruct b as [| c b]; [reflexivity |].
    change (String c b +:+ ".zip") with (String c (b +:+ ".zip")).
    cbn. now destruct (Ascii.eqb "/" c). }
  rewrite Hstart. destruct (PyStr.startswith "/" b); [reflexivity |].
  destruct (String.eqb a "" || PyStr.endswith "/" a);
    now rewrite !append_assoc.
Qed.

(** X13: for plain names, the path [model.save] is given is
    [<local_repo_path>/<repo_name>/<model_name>]; every unpacking in the log
    comes after that save, reads the archive at that path with [.zip]
    added, and unpacks it into a directory at that very path. *)
Theorem unzip_matches_save (organization repo_name : string) :
  PyStr.split "/" repo_id = [organization; repo_name] →
  plain_path local_repo_path = true →
  plain_name repo_name = true →
  plain_name model_name = true →
  let dest := local_repo_path // repo_name // model_name in
  let log :=
    calls (run (package_to_hub L model model_name algo_name algo_class_name
                  log_path hyperparams env_kwargs env_id repo_id commit_message
                  is_deterministic n_eval_episodes token local_repo_path
                  video_length generate_video) files env).2 in
  (∀ tr, tr `prefix_of` log →
     each_after (eq (ModelSave model dest)) is_unzip tr) ∧
  (∀ archive d, ZipExtractAll archive d ∈ log →
     d = dest ∧ archive = dest +:+ ".zip").
Proof.
  intros Hsplit _ _ _.
  destruct out_outcome
    as (organization' & repo_name' & metrics & cleanup & Hprefix & Hsame & _).
  destruct (Hsame _ _ Hsplit) as [<- <-]. cbv zeta. split.
  - intros tr Htr.
    apply (each_after_prefix _ _
             (expected organization repo_name metrics cleanup));
      [etransitivity; eassumption |].
    unfold pipeline_calls. find_first.
  - intros archive d Hin.
    apply (out_calls_expected _ _ _ _ _ Hprefix) in Hin.
    unfold pipeline_calls in Hin. cbv zeta in Hin.
    elem_cases Hin; try discriminate Hin. all: injection Hin as -> ->.
    all: (split; [reflexivity | apply path_join_zip]).
Qed.

(** X14: every replay in the log comes after the evaluation, and is
    recorded for the same model in the same environment, as [test_env]
    leaves it, with the same choice of deterministic actions and the same
    local repository, for the video length asked for. *)
Theorem replay_like_evaluation :
  ∃ repo_local_path,
    let evaluation :=
      EvaluateAgent model (test_env env) n_eval_episodes is_deterministic
                    repo_local_path in
    (∀ tr, tr `prefix_of` calls out.2 →
       each_after (eq evaluation) is_replay tr) ∧
    (∀ m e length d p, GenerateReplay m e length d p ∈ calls out.2 →
       m = model ∧ e = test_env env ∧ length = video_length ∧
       d = is_deterministic ∧ p = repo_local_path).
Proof.
  destruct out_outcome
    as (organization & repo_name & metrics & cleanup & Hprefix & _).
  exists (local_repo_path // repo_name). cbv zeta. split.
  - intros tr Htr.
    apply (each_after_prefix _ _
             (expected organization repo_name metrics cleanup));
      [etransitivity; eassumption |].
    unfold pipeline_calls. destruct generate_video; find_first.
  - intros m e length d p Hin.
    apply (out_calls_expected _ _ _ _ _ Hprefix) in Hin.
    unfold pipeline_calls in Hin. cbv zeta in Hin.
    elem_cases Hin; try discriminate Hin.
    injection Hin as -> -> -> -> ->. repeat split.
Qed.

End Pipeline.

(** ** The entry point *)

Section EntryPoint.

Context (L : Lib) (args : Args).

(** Where a call of a run of [main] comes from. *)
Lemma main_log_elem (files : FS) (env : VecEnv) (c : Call) :
  c ∈ calls (run (main L args) files env).2 →
  c ∈ startup_calls L args ∨
  ∃ env_kwargs organization repo_name metrics cleanup,
    c ∈ handover_calls L args env_kwargs ∨
    c ∈ pipeline_calls L (loaded_model L args)
          (model_name (args_algo args) (args_env args)) (args_algo args)
          (ALGOS_name L (args_algo args)) (log_path_of L args)
          (hyperparams_of L args) env_kwargs (args_env args) (repo_id args)
          (args_commit_message args)
          (deterministic args (is_atari L (args_env args))) 10 None "hub" 1000
          (negb (args_no_render args))
          (create_test_env L (args_env args) (n_envs args) (stats_path_of L args)
             (args_seed args) (negb (args_no_render args))
             (hyperparams_of L args) env_kwargs)
          organization repo_name metrics cleanup.
Proof.
  unfold run.
  destruct (main_calls L args {| fs := files; eval_env := env; calls := [] |})
    as (rest & -> & Hrest).
  cbn [calls app]. intros [Hc | Hc]%elem_of_app; [now left |].
  destruct Hrest as [-> | (kw & o & r & m & cl & done & -> & Hprefix)].
  - now apply elem_of_nil in Hc.
  - right. exists kw, o, r, m, cl.
    apply elem_of_app in Hc as [Hc | Hc]; [now left | right].
    destruct Hprefix as [k Hk]. cbn [eval_env pipeline_world] in Hk.
    rewrite Hk. apply elem_of_app. now left.
Qed.

(** Sorts a call of a run of [main] by where it comes from. *)
Ltac main_log_cases H :=
  apply main_log_elem in H as [H | (? & ? & ? & ? & ? & [H | H])];
  [ unfold startup_calls in H
  | unfold handover_calls, create_test_env_call in H
  | unfold pipeline_calls in H; cbv zeta in H ];
  elem_cases H.

(** The hand-over: when the block that loads [env_kwargs] returns,
    [main] is the call of [package_to_hub] with what it resolved. *)
Lemma main_handover (w : World) (env_kwargs : Dict) :
  (load_env_kwargs L (log_path_of L args) (args_env args) (args_env_kwargs args)
     (load_world L args w)).1 = Ok env_kwargs →
  main L args w =
  package_to_hub L (loaded_model L args)
    (model_name (args_algo args) (args_env args)) (args_algo args)
    (ALGOS_name L (args_algo args)) (log_path_of L args)
    (hyperparams_of L args) env_kwargs (args_env args) (repo_id args)
    (args_commit_message args)
    (deterministic args (is_atari L (args_env args))) 10 None "hub" 1000
    (negb (args_no_render args)) (pipeline_world L args w env_kwargs).
Proof. intros Hload. rewrite main_run. now rewrite Hload. Qed.

(** C1: the run is stochastic ([deterministic] is false) exactly when
    [--stochastic] is set, or the environment is atari-like and
    [--deterministic] is not set; in every other case it is deterministic.
    Whenever the keyword arguments load, [main] calls [package_to_hub] with
    that flag, and every evaluation and every replay of a run of [main] is
    made with it. *)
Theorem determinism_flag_resolution :
  let atari := is_atari L (args_env args) in
  (args_stochastic args = true ∨
   (atari = true ∧ args_deterministic args = false) →
   stochastic args atari = true ∧ deterministic args atari = false) ∧
  (¬ (args_stochastic args = true ∨
      (atari = true ∧ args_deterministic args = false)) →
   stochastic args atari = false ∧ deterministic args atari = true) ∧
  (∀ w env_kwargs,
     (load_env_kwargs L (log_path_of L args) (args_env args)
        (args_env_kwargs args) (load_world L args w)).1 = Ok env_kwargs →
     main L args w =
     package_to_hub L (loaded_model L args)
       (model_name (args_algo args) (args_env args)) (args_algo args)
       (ALGOS_name L (args_algo args)) (log_path_of L args)
       (hyperparams_of L args) env_kwargs (args_env args) (repo_id args)
       (args_commit_message args) (deterministic args atari) 10 None "hub" 1000
       (negb (args_no_render args)) (pipeline_world L args w env_kwargs)) ∧
  (∀ files env c flag,
     c ∈ calls (run (main L args) files env).2 →
     action_flag c = Some flag → flag = deterministic args atari).
Proof.
  cbv zeta. split; [| split; [| split]].
  - unfold deterministic, stochastic.
    destruct (args_stochastic args), (is_atari L (args_env args)),
      (args_deterministic args); simpl; intros H;
      try (split; reflexivity); exfalso;
      destruct H as [H | [H1 H2]]; discriminate.
  - unfold deterministic, stochastic.
    destruct (args_stochastic args), (is_atari L (args_env args)),
      (args_deterministic args); simpl; intros H;
      try (split; reflexivity); exfalso; apply H; auto.
  - exact main_handover.
  - intros files env c flag Hc Hflag.
    main_log_cases Hc; subst c; cbn in Hflag; try discriminate Hflag.
    all: now injection Hflag as <-.
Qed.

(** C3: whenever the keyword arguments load, [main] calls
    [package_to_hub] with [repo_id] as the repository id, and a run of
    [main] asks the hub for no other repository; with a supplied repo name
    the id is the organization, a slash, and the name in which every slash
    has become a dash (same length, each character mapped on its own);
    without one the repo name is [<algo>-<env_id>], which gives
    [acme/ppo-CartPole-v1] in the example. *)
Theorem repo_id_construction :
  (∀ w env_kwargs,
     (load_env_kwargs L (log_path_of L args) (args_env args)
        (args_env_kwargs args) (load_world L args w)).1 = Ok env_kwargs →
     main L args w =
     package_to_hub L (loaded_model L args)
       (model_name (args_algo args) (args_env args)) (args_algo args)
       (ALGOS_name L (args_algo args)) (log_path_of L args)
       (hyperparams_of L args) env_kwargs (args_env args) (repo_id args)
       (args_commit_message args)
       (deterministic args (is_atari L (args_env args))) 10 None "hub" 1000
       (negb (args_no_render args)) (pipeline_world L args w env_kwargs)) ∧
  (∀ files env token id,
     CreateRepo token id ∈ calls (run (main L args) files env).2 →
     id = repo_id args) ∧
  (∀ name, args_repo_name args = Some name →
     ∃ replaced,
       repo_id args = args_organization args +:+ "/" +:+ replaced ∧
       String.length replaced = String.length name ∧
       ∀ i, String.get i replaced = slash_to_dash <$> String.get i name) ∧
  (args_repo_name args = None →
     repo_name args = args_algo args +:+ "-" +:+ args_env args) ∧
  (args_repo_name args = None → args_algo args = "ppo" →
     args_env args = "CartPole-v1" → args_organization args = "acme" →
     repo_id args = "acme/ppo-CartPole-v1").
Proof.
  split; [exact main_handover |]. split; [| split; [| split]].
  - intros files env token id Hc.
    main_log_cases Hc; try discriminate Hc. all: now injection Hc as _ ->.
  - intros name Hname. exists (PyStr.replace "/" "-" name).
    unfold repo_id, repo_name. rewrite Hname.
    split; [reflexivity |]. split; [apply replace_length |].
    intros i. apply replace_get.
  - intros Hnone. unfold repo_name. now rewrite Hnone.
  - intros Hnone Halgo Henv Horga. unfold repo_id, repo_name, model_name.
    now rewrite Hnone, Halgo, Henv, Horga.
Qed.

(** C4: [n_envs] is one for an algorithm of the off-policy set whatever
    [--n-envs] says, and the requested count for any other algorithm; every
    environment a run of [main] builds is built with [n_envs], every
    evaluation is made in such an environment, and, whenever the keyword
    arguments load, [main] calls [package_to_hub] in a world whose
    evaluation environment was built so. *)
Theorem off_policy_forces_single_env :
  (args_algo args ∈ ["qrdqn"; "dqn"; "ddpg"; "sac"; "her"; "td3"; "tqc"] →
     n_envs args = 1%Z) ∧
  (args_algo args ∉ ["qrdqn"; "dqn"; "ddpg"; "sac"; "her"; "td3"; "tqc"] →
     n_envs args = args_n_envs args) ∧
  (∀ files env env_id n stats_path seed should_render hyperparams env_kwargs,
     CreateTestEnv env_id n stats_path seed should_render hyperparams env_kwargs
       ∈ calls (run (main L args) files env).2 →
     n = n_envs args) ∧
  (∀ files env m e episodes d p,
     EvaluateAgent m e episodes d p ∈ calls (run (main L args) files env).2 →
     ∃ stats_path hyperparams env_kwargs,
       e = test_env (create_test_env L (args_env args) (n_envs args) stats_path
                       (args_seed args) (negb (args_no_render args))
                       hyperparams env_kwargs)) ∧
  (∀ w env_kwargs,
     (load_env_kwargs L (log_path_of L args) (args_env args)
        (args_env_kwargs args) (load_world L args w)).1 = Ok env_kwargs →
     built_with L args (n_envs args) (pipeline_world L args w env_kwargs) ∧
     main L args w =
     package_to_hub L (loaded_model L args)
       (model_name (args_algo args) (args_env args)) (args_algo args)
       (ALGOS_name L (args_algo args)) (log_path_of L args)
       (hyperparams_of L args) env_kwargs (args_env args) (repo_id args)
       (args_commit_message args)
       (deterministic args (is_atari L (args_env args))) 10 None "hub" 1000
       (negb (args_no_render args)) (pipeline_world L args w env_kwargs)).
Proof.
  split; [| split; [| split; [| split]]].
  - unfold n_envs. intros Hin.
    apply py_in_elem_of in Hin. unfold off_policy_algos. now rewrite Hin.
  - unfold n_envs. intros Hin.
    destruct (py_in (args_algo args) off_policy_algos) eqn:Hpy; [| reflexivity].
    exfalso. apply Hin. now apply py_in_elem_of.
  - intros files env env_id n stats_path seed should_render hyperparams
      env_kwargs Hc.
    main_log_cases Hc; try discriminate Hc. all: now injection Hc as _ -> _ _ _ _ _.
  - intros files env m e episodes d p Hc.
    main_log_cases Hc; try discriminate Hc.
    all: injection Hc as _ -> _ _ _; eauto.
  - intros w env_kwargs Hload. split; [| now apply main_handover].
    unfold built_with, pipeline_world. cbn [eval_env]. eauto.
Qed.

(** X8: in a run of [main], whatever its outcome,
    [torch.set_num_threads] is called exactly when [--num-threads] is
    positive, and then with that number. *)
Theorem main_sets_threads_when_positive (files : FS) (env : VecEnv) (n : Z) :
  SetNumThreads n ∈ calls (run (main L args) files env).2 ↔
  n = args_num_threads args ∧ (0 < n)%Z.
Proof.
  split.
  - intros Hc.
    apply main_log_elem in Hc as [Hc | (? & ? & ? & ? & ? & [Hc | Hc])].
    + unfold startup_calls in Hc.
      destruct (0 <? args_num_threads args)%Z eqn:Hpos;
        elem_cases Hc; try discriminate Hc.
      all: injection Hc as ->; apply Z.ltb_lt in Hpos; now split.
    + unfold handover_calls, create_test_env_call in Hc.
      elem_cases Hc; discriminate Hc.
    + unfold pipeline_calls in Hc. cbv zeta in Hc.
      elem_cases Hc; discriminate Hc.
  - intros [-> Hpos]. unfold run.
    destruct (main_calls L args {| fs := files; eval_env := env; calls := [] |})
      as (rest & -> & _).
    cbn [calls app]. apply elem_of_app. left. unfold startup_calls.
    apply Z.ltb_lt in Hpos. rewrite Hpos.
    apply elem_of_app. right. apply elem_of_app. right. repeat constructor.
Qed.

(** X9: every model a run of [main] loads is loaded for the algorithm
    and the device asked for, with the seed only, and with a buffer of size
    one on top for the off-policy algorithms; whenever the keyword
    arguments load, that model is loaded and is the one [main] hands to
    [package_to_hub]. *)
Theorem main_loads_with_dummy_buffer :
  (∀ files env m,
     AlgoLoad m ∈ calls (run (main L args) files env).2 →
     model_algo m = args_algo args ∧
     model_device m = args_device args ∧
     (args_algo args ∈ off_policy_algos →
      model_kwargs m = [("seed", args_seed args); ("buffer_size", 1%Z)]) ∧
     (args_algo args ∉ off_policy_algos →
      model_kwargs m = [("seed", args_seed args)])) ∧
  (∀ w env_kwargs,
     (load_env_kwargs L (log_path_of L args) (args_env args)
        (args_env_kwargs args) (load_world L args w)).1 = Ok env_kwargs →
     ∃ m,
       AlgoLoad m ∈ calls (pipeline_world L args w env_kwargs) ∧
       main L args w =
       package_to_hub L m
         (model_name (args_algo args) (args_env args)) (args_algo args)
         (ALGOS_name L (args_algo args)) (log_path_of L args)
         (hyperparams_of L args) env_kwargs (args_env args) (repo_id args)
         (args_commit_message args)
         (deterministic args (is_atari L (args_env args))) 10 None "hub" 1000
         (negb (args_no_render args)) (pipeline_world L args w env_kwargs)).
Proof.
  split.
  - intros files env m Hc.
    main_log_cases Hc; try discriminate Hc. injection Hc as ->.
    split; [reflexivity |]. split; [reflexivity |].
    cbn [model_kwargs loaded_model]. unfold load_kwargs. split; intros Hin.
    + apply py_in_elem_of in Hin. now rewrite Hin.
    + destruct (py_in (args_algo args) off_policy_algos) eqn:Hpy;
        [| reflexivity].
      exfalso. apply Hin. now apply py_in_elem_of.
  - intros w env_kwargs Hload. exists (loaded_model L args).
    split; [| now apply main_handover].
    unfold pipeline_world, handover_calls. cbn [calls].
    apply elem_of_app. right. repeat constructor.
Qed.

(** X10: only the repo name is cleared of slashes, not the organization:
    with a slash in [--organization], a run of [main] never returns and
    makes no call to the hub. *)
Theorem main_rejects_organization_with_slash (files : FS) (env : VecEnv) :
  count_char "/" (args_organization args) ≠ 0%nat →
  (∀ url, (run (main L args) files env).1 ≠ Ok url) ∧
  (∀ c, c ∈ calls (run (main L args) files env).2 → ¬ is_hub_call c).
Proof.
  intros Hslash.
  assert (Hbad : count_char "/" (repo_id args) ≠ 1%nat)
    by (rewrite count_char_repo_id; lia).
  unfold run. rewrite main_run.
  destruct (load_env_kwargs L _ _ _ _).1 as [env_kwargs | e].
  - rewrite (package_to_hub_split_failure L _ _ _ _ _ _ _ _ _ _ _ _ _ _ _ _ _ Hbad).
    split; [discriminate |]. intros c Hc.
    cbn [snd calls pipeline_world load_world] in Hc.
    unfold handover_calls, create_test_env_call, startup_calls in Hc.
    elem_cases Hc; subst c; cbn; tauto.
  - split; [discriminate |]. intros c Hc.
    cbn [snd calls load_world] in Hc. unfold startup_calls in Hc.
    elem_cases Hc; subst c; cbn; tauto.
Qed.

End EntryPoint.


(** ** Sections of the model card *)

Section CardSections.

Import PyStr.

#[local] Arguments String.append !_ _ / : simpl nomatch.

(** Scans the text of a card: literal text is computed through, a
    substituted string is crossed with [contains_hole], and the newline
    that ends a literal line right before a substituted string with
    [scan_straddle]. *)
Ltac scan_card H :=
  cbn in H;
  first
    [ discriminate H
    | apply contains_hole with (k := "# Environment Arguments") in H;
      [ destruct H as [H | H]; [ tauto | scan_card H ]
      | reflexivity
      | vm_compute; reflexivity ]
    | apply orb_true_iff in H; destruct H as [H | H];
      [ apply scan_straddle with (k := "# Environment Arguments") (lo := 0%nat) in H;
        [ tauto | reflexivity | vm_compute; reflexivity | lia ]
      | scan_card H ] ].

(** Without keyword arguments the heading line can only come from one of
    the substituted strings. *)
Lemma heading_line_origin pf algo cls org env_id (mean std : float) hp :
  has_env_args_section (generate_model_card pf algo cls org env_id mean std hp ∅).1 = true →
  contains env_args_heading algo = true ∨ contains env_args_heading cls = true ∨
  contains env_args_heading org = true ∨ contains env_args_heading env_id = true ∨
  contains env_args_heading (pf hp) = true.
Proof.
  unfold has_env_args_section, generate_model_card.
  rewrite map_size_empty. cbv beta iota zeta delta [fst Nat.ltb Nat.leb].
  unfold card_header, card_usage, line, env_args_heading, nl.
  rewrite !append_assoc.
  intros H. scan_card H.
Qed.

Lemma env_args_section_appended pf algo cls org env_id (mean std : float) hp kw :
  kw ≠ ∅ →
  (generate_model_card pf algo cls org env_id mean std hp kw).1 =
  (generate_model_card pf algo cls org env_id mean std hp ∅).1 +:+
  (nl +:+ "# Environment Arguments" +:+ nl +:+
   "```python" +:+ nl +:+ pf kw +:+ nl +:+ "```" +:+ nl).
Proof.
  intros Hkw. unfold generate_model_card.
  apply map_size_non_empty_iff in Hkw. rewrite map_size_empty.
  destruct (size kw) as [| n] eqn:Hsize; [contradiction |].
  cbv beta iota zeta delta [fst Nat.ltb Nat.leb].
  reflexivity.
Qed.

Lemma env_args_section_found (text rendered : string) :
  has_env_args_section
    (text +:+ (nl +:+ "# Environment Arguments" +:+ nl +:+
               "```python" +:+ nl +:+ rendered +:+ nl +:+ "```" +:+ nl)) = true.
Proof.
  unfold has_env_args_section.
  apply contains_app_r, contains_startswith.
  reflexivity.
Qed.

(** C2, as the code has it: with keyword arguments the card is the card
    without any, followed by the "Environment Arguments" section: the
    heading line, then the rendered mapping between code fences; so it has
    the heading line.  Without keyword arguments no section is appended, and
    the card has no such heading line as long as none of the strings put
    into the template (algorithm name, class name, organization, environment
    id, rendered hyperparameters) contains the heading text itself. *)
Theorem env_args_section_presence
    pf algo cls org env_id (mean std : float) hp kw :
  (kw ≠ ∅ →
   (generate_model_card pf algo cls org env_id mean std hp kw).1 =
   (generate_model_card pf algo cls org env_id mean std hp ∅).1 +:+
   (nl +:+ "# Environment Arguments" +:+ nl +:+
    "```python" +:+ nl +:+ pf kw +:+ nl +:+ "```" +:+ nl) ∧
   has_env_args_section
     (generate_model_card pf algo cls org env_id mean std hp kw).1 = true) ∧
  (kw = ∅ →
   contains env_args_heading algo = false →
   contains env_args_heading cls = false →
   contains env_args_heading org = false →
   contains env_args_heading env_id = false →
   contains env_args_heading (pf hp) = false →
   has_env_args_section
     (generate_model_card pf algo cls org env_id mean std hp kw).1 = false).
Proof.
  split.
  - intros Hkw. split; [now apply env_args_section_appended |].
    rewrite (env_args_section_appended _ _ _ _ _ _ _ _ _ Hkw).
    apply env_args_section_found.
  - intros -> Halgo Hcls Horg Henv Hhp.
    apply not_true_is_false. intros Hsection.
    apply heading_line_origin in Hsection.
    rewrite Halgo, Hcls, Horg, Henv, Hhp in Hsection.
    destruct Hsection as [H | [H | [H | [H | H]]]]; discriminate H.
Qed.

End CardSections.

Lemma env_args_section_presence_witness :
  ((generate_model_card (pformat example_lib) "ppo" "PPO" "acme" "CartPole-v1"
      1.5%float 0.25%float ∅ example_env_kwargs).1 =
   (generate_model_card (pformat example_lib) "ppo" "PPO" "acme" "CartPole-v1"
      1.5%float 0.25%float ∅ ∅).1 +:+
   (PyStr.nl +:+ "# Environment Arguments" +:+ PyStr.nl +:+
    "```python" +:+ PyStr.nl +:+ pformat example_lib example_env_kwargs +:+
    PyStr.nl +:+ "```" +:+ PyStr.nl) ∧
   has_env_args_section
     (generate_model_card (pformat example_lib) "ppo" "PPO" "acme" "CartPole-v1"
        1.5%float 0.25%float ∅ example_env_kwargs).1 = true) ∧
  has_env_args_section
    (generate_model_card (pformat example_lib) "ppo" "PPO" "acme" "CartPole-v1"
       1.5%float 0.25%float ∅ ∅).1 = false.
Proof.
  split.
  - apply (proj1 (env_args_section_presence (pformat example_lib) "ppo" "PPO"
                    "acme" "CartPole-v1" 1.5%float 0.25%float ∅ example_env_kwargs)).
    intros Hempty. apply (f_equal size) in Hempty. vm_compute in Hempty.
    discriminate Hempty.
  - apply (proj2 (env_args_section_presence (pformat example_lib) "ppo" "PPO"
                    "acme" "CartPole-v1" 1.5%float 0.25%float ∅ ∅));
      vm_compute; reflexivity.
Defined.

(** C2 as stated fails: with no keyword arguments at all, an environment
    id that holds the heading on a line of its own puts that line into the
    card. *)
Lemma env_args_section_without_env_kwargs :
  let card :=
    (generate_model_card (pformat example_lib) "ppo" "PPO" "acme"
       env_id_with_heading 1.5%float 0.25%float ∅ ∅).1 in
  has_env_args_section card = true ∧
  ¬ (has_env_args_section card = true ↔ (∅ : Dict) ≠ ∅).
Proof.
  cbv zeta.
  assert (Hsection : has_env_args_section
    (generate_model_card (pformat example_lib) "ppo" "PPO" "acme"
       env_id_with_heading 1.5%float 0.25%float ∅ ∅).1 = true)
    by (vm_compute; reflexivity).
  split; [exact Hsection |].
  intros [Hiff _]. now apply (Hiff Hsection).
Qed.

(** ** The example run *)

Lemma example_run_returns (generate_video : bool) :
  (run (example_package generate_video) example_fs example_env).1 =
  Ok "https://huggingface.co/acme/ppo-CartPole-v1".
Proof. destruct generate_video; vm_compute; reflexivity. Qed.

Lemma pipeline_order_witness :
  each_after is_evaluate is_generate_card
    (calls (run (example_package true) example_fs example_env).2) ∧
  each_after is_replay is_generate_card
    (calls (run (example_package true) example_fs example_env).2) ∧
  ∃ mean_reward std_reward,
    GenerateModelCard mean_reward std_reward
      ∈ calls (run (example_package true) example_fs example_env).2.
Proof.
  destruct (pipeline_order example_lib example_model "ppo-CartPole-v1" "ppo"
              "PPO" "logs/ppo" ∅ example_env_kwargs "CartPole-v1"
              "acme/ppo-CartPole-v1" "Initial commit" true 10 None "hub" 1000
              true example_fs example_env) as (repo_local_path & Horder & Hdone).
  destruct (Horder _ (reflexivity _)) as (_ & Heval & _ & Hreplay).
  split; [| split].
  - intros i c Hi Hc. destruct (Heval i c Hi Hc) as (j & d & Hj & Hd & <-).
    exists j. eexists. split; [exact Hj |]. split; [exact Hd | exact I].
  - exact (Hreplay eq_refl).
  - exact (Hdone _ (example_run_returns true)).
Defined.

Lemma vec_normalize_handling_witness :
  ∃ repo_local_path,
    each_after
      (eq (VecNormalizeSave
             {| training := true; norm_reward := true; running_stats := "rms" |}
             (repo_local_path // "vec_normalize.pkl")))
      is_flag_assignment
      (calls (run (example_package false) example_fs example_env).2) ∧
    unwrap_vec_normalize
      (eval_env (run (example_package false) example_fs example_env).2) =
    Some {| training := false; norm_reward := false; running_stats := "rms" |}.
Proof.
  destruct (vec_normalize_handling example_lib example_model "ppo-CartPole-v1"
              "ppo" "PPO" "logs/ppo" ∅ example_env_kwargs "CartPole-v1"
              "acme/ppo-CartPole-v1" "Initial commit" true 10 None "hub" 1000
              false example_fs example_env) as (repo_local_path & Hlog & Hdone).
  exists repo_local_path. split.
  - exact (proj1 (proj1 (Hlog _ (reflexivity _)) _ eq_refl)).
  - exact (proj2 (proj2 (proj2
             (proj1 (Hdone _ (example_run_returns false)) _ eq_refl)))).
Defined.

Lemma metadata_contains_rewards_witness :
  ∃ test_env repo_local_path,
    EvaluateAgent example_model test_env 10 true repo_local_path
      ∈ calls (run (example_package false) example_fs example_env).2 ∧
    let rewards := evaluate_agent example_lib example_model test_env 10 true
                     repo_local_path in
    generate_metadata "PPO" "CartPole-v1" 1.5%float 0.25%float !! "mean_reward" =
      Some (MetaFloat rewards.1) ∧
    generate_metadata "PPO" "CartPole-v1" 1.5%float 0.25%float !! "std_reward" =
      Some (MetaFloat rewards.2).
Proof.
  apply (proj2 (metadata_contains_rewards example_lib example_model
                  "ppo-CartPole-v1" "ppo" "PPO" "logs/ppo" ∅ example_env_kwargs
                  "CartPole-v1" "acme/ppo-CartPole-v1" "Initial commit" true 10
                  None "hub" 1000 false example_fs example_env)
               "hub/ppo-CartPole-v1/README.md").
  apply (list_elem_of_lookup_2 _ 17). vm_compute. reflexivity.
Defined.

Lemma readme_settled_by_save_model_card_witness :
  ∃ organization repo_name w_card w_saved,
    PyStr.split "/" "acme/ppo-CartPole-v1" = [organization; repo_name] ∧
    let readme := "hub" // repo_name // "README.md" in
    let card :=
      pipeline_card example_lib example_model "ppo" "PPO" ∅ example_env_kwargs
        "CartPole-v1" true 10 ("hub" // repo_name) example_env organization in
    save_model_card example_lib ("hub" // repo_name) card.1 card.2 w_card =
      (Ok tt, w_saved) ∧
    calls (run (example_package false) example_fs example_env).2 =
      (calls w_saved ++
       [MsgInfo ("Pushing repo " +:+ repo_name +:+ " to the Hugging Face Hub");
        PushToHub "Initial commit";
        MsgInfo ("Your model is pushed to the hub. You can view your model here: "
                 +:+ "https://huggingface.co/acme/ppo-CartPole-v1")])%list ∧
    fs (run (example_package false) example_fs example_env).2 !! readme =
      fs w_saved !! readme.
Proof.
  destruct (proj2 (readme_settled_by_save_model_card example_lib example_model
                     "ppo-CartPole-v1" "ppo" "PPO" "logs/ppo" ∅ example_env_kwargs
                     "CartPole-v1" "acme/ppo-CartPole-v1" "Initial commit" true 10
                     None "hub" 1000 false example_fs example_env)
                  "https://huggingface.co/acme/ppo-CartPole-v1"
                  (example_run_returns false))
    as (organization & repo_name & w_card & w_saved & Hsplit & Hsaved & _ &
        Hout & Hkeep).
  exists organization, repo_name, w_card, w_saved.
  split; [exact Hsplit |]. split; [exact Hsaved |]. split.
  - unfold example_package. rewrite Hout. reflexivity.
  - apply Hkeep. intros files'. reflexivity.
Defined.

(** The two writes of [save_model_card] in the example run: the Markdown
    goes to [README.md] with call 16, and call 17, [metadata_save], puts the
    metadata block before it; the file ends so. *)
Lemma readme_ends_with_front_matter :
  let out := run (example_package false) example_fs example_env in
  let readme := "hub/ppo-CartPole-v1/README.md" in
  let card :=
    generate_model_card (pformat example_lib) "ppo" "PPO" "acme" "CartPole-v1"
      1.5%float 0.25%float ∅ example_env_kwargs in
  out.1 = Ok "https://huggingface.co/acme/ppo-CartPole-v1" ∧
  calls out.2 !! 16%nat = Some (WriteFile readme card.1) ∧
  calls out.2 !! 17%nat = Some (MetadataSave readme card.2) ∧
  fs out.2 !! readme = Some (File (front_matter card.1)) ∧
  fs out.2 !! readme ≠ Some (File card.1).
Proof.
  cbv zeta. split; [exact (example_run_returns false) |].
  split; [vm_compute; reflexivity |]. split; [vm_compute; reflexivity |].
  assert (Hend : fs (run (example_package false) example_fs example_env).2
                   !! "hub/ppo-CartPole-v1/README.md" =
                 Some (File (front_matter
                   (generate_model_card (pformat example_lib) "ppo" "PPO" "acme"
                      "CartPole-v1" 1.5%float 0.25%float ∅ example_env_kwargs).1)))
    by (vm_compute; reflexivity).
  assert (Hlen : Nat.eqb
                   (String.length (front_matter
                      (generate_model_card (pformat example_lib) "ppo" "PPO" "acme"
                         "CartPole-v1" 1.5%float 0.25%float ∅ example_env_kwargs).1))
                   (String.length
                      (generate_model_card (pformat example_lib) "ppo" "PPO" "acme"
                         "CartPole-v1" 1.5%float 0.25%float ∅ example_env_kwargs).1) =
                 false)
    by (vm_compute; reflexivity).
  split; [exact Hend |]. rewrite Hend.
  generalize dependent
    (generate_model_card (pformat example_lib) "ppo" "PPO" "acme"
       "CartPole-v1" 1.5%float 0.25%float ∅ example_env_kwargs).1.
  intros text _ Hlen Heq.
  assert (Htext : front_matter text = text) by congruence.
  rewrite Htext, Nat.eqb_refl in Hlen. discriminate Hlen.
Qed.

(** ** The repository id, from the entry point to the pipeline *)

Lemma split_no_sep (sep : ascii) (s : string) :
  count_char sep s = 0%nat → PyStr.split sep s = [s].
Proof.
  induction s as [| c s IH]; [reflexivity |].
  cbn [count_char PyStr.split]. destruct (Ascii.eqb c sep); [discriminate |].
  intros Hcount. now rewrite (IH Hcount).
Qed.

Lemma split_app_sep (sep : ascii) (a b : string) :
  count_char sep a = 0%nat →
  PyStr.split sep (a +:+ String sep b) = a :: PyStr.split sep b.
Proof.
  induction a as [| c a IH].
  - intros _. change ("" +:+ String sep b) with (String sep b).
    cbn [PyStr.split]. rewrite Ascii.eqb_refl.
    pose proof (split_length sep b) as Hlen.
    now destruct (PyStr.split sep b).
  - change (String c a +:+ String sep b) with (String c (a +:+ String sep b)).
    cbn [count_char PyStr.split]. destruct (Ascii.eqb c sep); [discriminate |].
    intros Hcount. now rewrite (IH Hcount).
Qed.

(** X15: for an organization without a slash, the repository id the entry
    point builds is one [package_to_hub] can unpack: the split gives back
    the organization and the repo name with its slashes turned to dashes. *)
Theorem repo_id_unpacks (args : Args) (w : World) :
  count_char "/" (args_organization args) = 0%nat →
  unpack2 (PyStr.split "/" (repo_id args)) w =
  (Ok (args_organization args, PyStr.replace "/" "-" (repo_name args)), w).
Proof.
  intros Horga. unfold repo_id.
  change ("/" +:+ PyStr.replace "/" "-" (repo_name args))
    with (String "/" (PyStr.replace "/" "-" (repo_name args))).
  rewrite (split_app_sep _ _ _ Horga).
  rewrite split_no_sep by (now apply count_char_replace).
  reflexivity.
Qed.

(** ** The members of the metrics archive *)

Lemma last_split_app_sep (sep : ascii) (a b : string) :
  List.last (PyStr.split sep (a +:+ String sep b)) "" =
  List.last (PyStr.split sep b) "".
Proof.
  induction a as [| c a IH].
  - change ("" +:+ String sep b) with (String sep b).
    cbn [PyStr.split]. rewrite Ascii.eqb_refl.
    pose proof (split_length sep b) as Hlen.
    now destruct (PyStr.split sep b).
  - change (String c a +:+ String sep b) with (String c (a +:+ String sep b)).
    cbn [PyStr.split].
    pose proof (split_length sep (a +:+ String sep b)) as Hlen.
    rewrite count_char_app in Hlen. cbn [count_char] in Hlen.
    rewrite Ascii.eqb_refl in Hlen.
    destruct (PyStr.split sep (a +:+ String sep b)) as [| piece [| next pieces]];
      cbn [length] in Hlen; try lia.
    rewrite <- IH. now destruct (Ascii.eqb c sep).
Qed.

Lemma contains_slash_count (s : string) :
  PyStr.contains "/" s = false ↔ count_char "/" s = 0%nat.
Proof.
  induction s as [| c s IH]; [now split |].
  cbn [PyStr.contains PyStr.startswith count_char].
  rewrite orb_false_iff, IH, (Ascii.eqb_sym c "/").
  destruct (Ascii.eqb "/" c).
  - split; [intros [Hhead _]; now destruct s | discriminate].
  - cbn. split; [now intros [_ ->] | intros ->; split; [now destruct s | reflexivity]].
Qed.

Lemma startswith_append (p s : string) : PyStr.startswith p (p +:+ s) = true.
Proof.
  induction p as [| c p IH]; [reflexivity |].
  change (String c p +:+ s) with (String c (p +:+ s)).
  cbn [PyStr.startswith]. now rewrite Ascii.eqb_refl, IH.
Qed.

Lemma drop_append (p s : string) : PyStr.drop (String.length p) (p +:+ s) = s.
Proof. induction p as [| c p IH]; [now destruct s | exact IH]. Qed.

(** The paths [glob] finds in a folder are the entries [<folder>/<name>]
    for the names it accepts. *)
Lemma glob_match_name (dir suffix p : string) :
  dir ≠ "" →
  glob_match dir suffix p = true ↔
  ∃ name, p = dir +:+ "/" +:+ name ∧ count_char "/" name = 0%nat ∧
          PyStr.startswith "." name = false ∧ PyStr.endswith suffix name = true.
Proof.
  intros Hdir. unfold glob_match. cbv zeta.
  apply String.eqb_neq in Hdir. rewrite Hdir. split.
  - intros Hmatch.
    apply andb_true_iff in Hmatch as [Hmatch Hsuffix].
    apply andb_true_iff in Hmatch as [Hmatch Hhidden].
    apply andb_true_iff in Hmatch as [Hprefix Hflat].
    apply negb_true_iff in Hflat, Hhidden. apply contains_slash_count in Hflat.
    apply startswith_take_drop in Hprefix.
    exists (PyStr.drop (String.length (dir +:+ "/")) p).
    split; [| auto]. rewrite Hprefix at 1. apply append_assoc.
  - intros (name & -> & Hflat & Hhidden & Hsuffix).
    rewrite <- append_assoc, startswith_append, drop_append.
    apply contains_slash_count in Hflat. now rewrite Hflat, Hhidden, Hsuffix.
Qed.

Lemma last_component_name (dir name : string) :
  count_char "/" name = 0%nat → last_component (dir +:+ "/" +:+ name) = name.
Proof.
  intros Hflat. unfold last_component.
  change ("/" +:+ name) with (String "/" name).
  now rewrite last_split_app_sep, split_no_sep.
Qed.

(** X16: the metrics archive.  What is written to
    [train_eval_metrics.zip] is the archive of a list of members; a member
    is [evaluations.npz], when that is a file of the log folder, or an entry
    [<log_path>/<name>] of the log folder found by the pattern [*.csv], stored
    under [<name>] alone; and every file of the log folder with a name
    ending in [.csv] and not starting with a dot is a member under its
    name. *)
Theorem monitor_files_archived_flat
    (L : Lib) (log_path repo_local_path : string) (w : World) :
  log_path ≠ "" →
  has_magic log_path = false →
  ∃ members,
    zip_train_eval_metrics L log_path repo_local_path w =
      write_file (repo_local_path // "train_eval_metrics.zip")
        (zip_members L members) w ∧
    (∀ arcname data, (arcname, data) ∈ members →
       (arcname = "evaluations.npz" ∧
        fs w !! (log_path // "evaluations.npz") = Some (File data)) ∨
       (is_Some (fs w !! (log_path +:+ "/" +:+ arcname)) ∧
        count_char "/" arcname = 0%nat ∧
        PyStr.endswith ".csv" arcname = true ∧
        data = file_content (fs w) (log_path +:+ "/" +:+ arcname))) ∧
    (∀ name content,
       fs w !! (log_path +:+ "/" +:+ name) = Some (File content) →
       count_char "/" name = 0%nat →
       PyStr.startswith "." name = false →
       PyStr.endswith ".csv" name = true →
       (name, content) ∈ members).
Proof.
  intros Hdir _. eexists. split; [reflexivity |]. split.
  - intros arcname data [Hin | Hin]%elem_of_app.
    + left. unfold is_file, file_content in Hin.
      destruct (fs w !! (log_path // "evaluations.npz")) as [[content |] |];
        try (now apply elem_of_nil in Hin).
      apply list_elem_of_singleton in Hin. now injection Hin as -> ->.
    + right. apply list_elem_of_In, in_map_iff in Hin as (p & [= <- <-] & Hp).
      apply glob_elem in Hp as [Hsome Hmatch].
      apply (glob_match_name _ _ _ Hdir) in Hmatch
        as (name & -> & Hflat & _ & Hsuffix).
      rewrite (last_component_name _ _ Hflat). auto.
  - intros name content Hfile Hflat Hhidden Hsuffix.
    apply elem_of_app. right. apply list_elem_of_In, in_map_iff.
    exists (log_path +:+ "/" +:+ name). split.
    + rewrite (last_component_name _ _ Hflat). unfold file_content.
      now rewrite Hfile.
    + apply glob_complete; [now rewrite Hfile |].
      apply (glob_match_name _ _ _ Hdir). eauto.
Qed.

(** ** The properties above on the example data *)

Lemma package_to_hub_bad_repo_id_witness :
  package_to_hub example_lib example_model "ppo-CartPole-v1" "ppo" "PPO"
    "logs/ppo" ∅ example_env_kwargs "CartPole-v1" "acme/team/ppo-CartPole-v1"
    "Initial commit" true 10 None "hub" 1000 true (world_of example_fs) =
  (Raise ValueError,
   {| fs := example_fs; eval_env := example_env;
      calls := [MsgInfo pipeline_banner] |}).
Proof.
  apply (package_to_hub_bad_repo_id example_lib example_model "ppo-CartPole-v1"
           "ppo" "PPO" "logs/ppo" ∅ example_env_kwargs "CartPole-v1"
           "acme/team/ppo-CartPole-v1" "Initial commit" true 10 None "hub" 1000
           true (world_of example_fs)).
  vm_compute. discriminate.
Defined.

Lemma save_model_card_outcome_witness :
  save_model_card example_lib "hub" "# card" ∅ (world_of example_fs_readme_dir) =
  (Raise IsADirectoryError,
   {| fs := example_fs_readme_dir; eval_env := example_env;
      calls := [WriteFile ("hub" // "README.md") "# card"] |}).
Proof.
  apply (proj1 (save_model_card_outcome example_lib "hub" "# card" ∅
                  (world_of example_fs_readme_dir))).
  vm_compute. reflexivity.
Defined.

Lemma save_model_card_overwrites_witness :
  fs (save_model_card example_lib "hub" "# card" ∅ (world_of ∅)).2 =
  fs (save_model_card example_lib "hub" "# card" ∅
        (world_of example_fs_old_readme)).2.
Proof.
  apply (save_model_card_overwrites example_lib "hub" "# card" ∅
           (world_of ∅) (world_of example_fs_old_readme)).
  - intros p Hp. cbn [fs world_of]. unfold example_fs_old_readme.
    rewrite lookup_empty. symmetry. apply lookup_singleton_ne.
    intros Heq. apply Hp. rewrite <- Heq. reflexivity.
  - vm_compute. discriminate.
  - vm_compute. discriminate.
Defined.

Lemma cleanup_raises_on_directory_witness :
  ∃ first,
    fs (world_of example_fs_meta_dir) !! first = Some Dir ∧
    cleanup_replay_files (world_of example_fs_meta_dir) =
    (Raise IsADirectoryError,
     {| fs := fs (world_of example_fs_meta_dir);
        eval_env := eval_env (world_of example_fs_meta_dir);
        calls := calls (world_of example_fs_meta_dir) ++ [Unlink first] |}).
Proof.
  apply (cleanup_raises_on_directory (world_of example_fs_meta_dir)
           "replay.meta.json").
  - vm_compute. reflexivity.
  - vm_compute. reflexivity.
  - vm_compute. reflexivity.
  - intros q content _. cbn [fs world_of]. unfold example_fs_meta_dir.
    destruct (decide (q = "replay.meta.json")) as [-> | Hne].
    + rewrite lookup_singleton_eq. discriminate.
    + rewrite lookup_singleton_ne by congruence. discriminate.
Defined.


Lemma no_video_no_deletion_witness :
  Forall (fun c => ¬ is_replay c ∧ ¬ is_unlink c)
    (calls (run (example_package false) example_fs example_env).2).
Proof.
  apply Forall_forall.
  apply (no_video_no_deletion example_lib example_model "ppo-CartPole-v1"
           "ppo" "PPO" "logs/ppo" ∅ example_env_kwargs "CartPole-v1"
           "acme/ppo-CartPole-v1" "Initial commit" true 10 None "hub" 1000
           false example_fs example_env).
  reflexivity.
Defined.

Lemma repo_id_unpacks_witness :
  unpack2 (PyStr.split "/" (repo_id (example_args_for "ppo" (Some "team/cart/pole"))))
    (world_of example_fs) =
  (Ok ("acme", "team-cart-pole"), world_of example_fs).
Proof.
  apply (repo_id_unpacks (example_args_for "ppo" (Some "team/cart/pole"))
           (world_of example_fs)).
  reflexivity.
Defined.

Lemma load_env_kwargs_errors_witness :
  (load_env_kwargs (example_lib_loading (YamlMapping ∅)) "logs/ppo" "CartPole-v1"
     None (world_of example_fs)).1 = Raise KeyError ∧
  (load_env_kwargs (example_lib_loading YamlNotMapping) "logs/ppo" "CartPole-v1"
     None (world_of example_fs)).1 = Raise TypeError.
Proof.
  split.
  - apply (proj2 (proj2 (proj1 (proj2 (proj2
             (load_env_kwargs_errors (example_lib_loading (YamlMapping ∅))
                "logs/ppo" "CartPole-v1" None (world_of example_fs))))
             "env_kwargs: {difficulty: 1, mode: easy}" (reflexivity _)))).
    exists ∅. split; reflexivity.
  - apply (proj2 (proj1 (proj1 (proj2 (proj2
             (load_env_kwargs_errors (example_lib_loading YamlNotMapping)
                "logs/ppo" "CartPole-v1" None (world_of example_fs))))
             "env_kwargs: {difficulty: 1, mode: easy}" (reflexivity _)))).
    reflexivity.
Defined.

Lemma unzip_matches_save_witness :
  (∀ tr,
     tr `prefix_of` calls (run (example_package false) example_fs example_env).2 →
     each_after
       (eq (ModelSave example_model ("hub" // "ppo-CartPole-v1" // "ppo-CartPole-v1")))
       is_unzip tr) ∧
  "hub" // "ppo-CartPole-v1" // "ppo-CartPole-v1" =
    "hub/ppo-CartPole-v1/ppo-CartPole-v1" ∧
  "hub/ppo-CartPole-v1/ppo-CartPole-v1.zip" =
    "hub" // "ppo-CartPole-v1" // "ppo-CartPole-v1" +:+ ".zip".
Proof.
  destruct (unzip_matches_save example_lib example_model "ppo-CartPole-v1"
              "ppo" "PPO" "logs/ppo" ∅ example_env_kwargs "CartPole-v1"
              "acme/ppo-CartPole-v1" "Initial commit" true 10 None "hub" 1000
              false example_fs example_env "acme" "ppo-CartPole-v1"
              (reflexivity _) (reflexivity _) (reflexivity _) (reflexivity _))
    as [Horder Hpaths].
  split; [exact Horder |].
  destruct (Hpaths "hub/ppo-CartPole-v1/ppo-CartPole-v1.zip"
              "hub/ppo-CartPole-v1/ppo-CartPole-v1") as [Hdest Harchive].
  { apply (list_elem_of_lookup_2 _ 9). vm_compute. reflexivity. }
  split; [now symmetry | exact Harchive].
Defined.

Lemma replay_like_evaluation_witness :
  ∃ repo_local_path,
    each_after
      (eq (EvaluateAgent example_model (test_env example_env) 10 true
             repo_local_path))
      is_replay (calls (run (example_package true) example_fs example_env).2) ∧
    GenerateReplay example_model (test_env example_env) 1000 true repo_local_path
      ∈ calls (run (example_package true) example_fs example_env).2.
Proof.
  destruct (replay_like_evaluation example_lib example_model "ppo-CartPole-v1"
              "ppo" "PPO" "logs/ppo" ∅ example_env_kwargs "CartPole-v1"
              "acme/ppo-CartPole-v1" "Initial commit" true 10 None "hub" 1000
              true example_fs example_env) as (repo_local_path & Horder & Hargs).
  assert (Hin : GenerateReplay example_model (test_env example_env) 1000 true
                  "hub/ppo-CartPole-v1"
                ∈ calls (run (example_package true) example_fs example_env).2)
    by (apply (list_elem_of_lookup_2 _ 15); vm_compute; reflexivity).
  destruct (Hargs _ _ _ _ _ Hin) as (_ & _ & _ & _ & Hpath).
  exists repo_local_path. split; [apply Horder; reflexivity |].
  rewrite <- Hpath. exact Hin.
Defined.

Lemma monitor_files_archived_flat_witness :
  ∃ members,
    zip_train_eval_metrics example_lib "logs/ppo" "hub/ppo-CartPole-v1"
      (world_of example_fs) =
    write_file ("hub/ppo-CartPole-v1" // "train_eval_metrics.zip")
      (zip_members example_lib members) (world_of example_fs) ∧
    ("0.monitor.csv", "r,l,t") ∈ members.
Proof.
  destruct (monitor_files_archived_flat example_lib "logs/ppo"
              "hub/ppo-CartPole-v1" (world_of example_fs))
    as (members & Hzip & _ & Hall); [discriminate | reflexivity |].
  exists members. split; [exact Hzip |].
  apply Hall; reflexivity.
Defined.

(** The entry point on the example: the keyword arguments load, and the
    run goes through the pipeline. *)
Lemma example_kwargs_load (name : option string) :
  (load_env_kwargs example_lib (log_path_of example_lib (example_args_for "ppo" name))
     "CartPole-v1" (Some {[ "mode" := PyStr "hard" ]})
     (load_world example_lib (example_args_for "ppo" name) (world_of example_fs))).1 =
  Ok example_kwargs_effective.
Proof. vm_compute. reflexivity. Qed.

Lemma example_main_returns :
  (main example_lib example_args (world_of example_fs)).1 =
  Ok "https://huggingface.co/acme/ppo-CartPole-v1".
Proof. vm_compute. reflexivity. Qed.

Lemma determinism_flag_resolution_witness :
  (stochastic example_args (is_atari example_lib "CartPole-v1") = false ∧
   deterministic example_args (is_atari example_lib "CartPole-v1") = true) ∧
  main example_lib example_args (world_of example_fs) =
  package_to_hub example_lib (loaded_model example_lib example_args)
    "ppo-CartPole-v1" "ppo" "PPO" "logs/ppo" ∅ example_kwargs_effective
    "CartPole-v1" "acme/ppo-CartPole-v1" "Initial commit" true 10 None "hub"
    1000 true
    (pipeline_world example_lib example_args (world_of example_fs)
       example_kwargs_effective).
Proof.
  split.
  - apply (proj1 (proj2 (determinism_flag_resolution example_lib example_args))).
    intros [H | [H _]]; discriminate H.
  - apply (proj1 (proj2 (proj2
             (determinism_flag_resolution example_lib example_args)))
             (world_of example_fs) example_kwargs_effective).
    exact (example_kwargs_load None).
Defined.

Lemma repo_id_construction_witness :
  (main example_lib (example_args_for "ppo" (Some "team/cart/pole"))
     (world_of example_fs) =
   package_to_hub example_lib
     (loaded_model example_lib (example_args_for "ppo" (Some "team/cart/pole")))
     "ppo-CartPole-v1" "ppo" "PPO" "logs/ppo" ∅ example_kwargs_effective
     "CartPole-v1" "acme/team-cart-pole" "Initial commit" true 10 None "hub"
     1000 true
     (pipeline_world example_lib (example_args_for "ppo" (Some "team/cart/pole"))
        (world_of example_fs) example_kwargs_effective)) ∧
  (∃ replaced,
     repo_id (example_args_for "ppo" (Some "team/cart/pole")) = "acme" +:+ "/" +:+ replaced ∧
     String.length replaced = 14 ∧
     ∀ i, String.get i replaced = slash_to_dash <$> String.get i "team/cart/pole") ∧
  repo_id example_args = "acme/ppo-CartPole-v1".
Proof.
  split; [| split].
  - apply (proj1 (repo_id_construction example_lib
                    (example_args_for "ppo" (Some "team/cart/pole")))
                 (world_of example_fs) example_kwargs_effective).
    exact (example_kwargs_load (Some "team/cart/pole")).
  - apply (proj1 (proj2 (proj2 (repo_id_construction example_lib
                    (example_args_for "ppo" (Some "team/cart/pole")))))
                 "team/cart/pole").
    reflexivity.
  - apply (proj2 (proj2 (proj2 (proj2
             (repo_id_construction example_lib example_args)))));
      reflexivity.
Defined.

Lemma off_policy_forces_single_env_witness :
  n_envs (example_args_for "sac" None) = 1%Z ∧
  n_envs (example_args_for "ppo" None) = 4%Z ∧
  built_with example_lib example_args 4
    (pipeline_world example_lib example_args (world_of example_fs)
       example_kwargs_effective) ∧
  main example_lib example_args (world_of example_fs) =
  package_to_hub example_lib (loaded_model example_lib example_args)
    "ppo-CartPole-v1" "ppo" "PPO" "logs/ppo" ∅ example_kwargs_effective
    "CartPole-v1" "acme/ppo-CartPole-v1" "Initial commit" true 10 None "hub"
    1000 true
    (pipeline_world example_lib example_args (world_of example_fs)
       example_kwargs_effective).
Proof.
  split; [| split].
  - apply (proj1 (off_policy_forces_single_env example_lib
                    (example_args_for "sac" None))).
    apply py_in_elem_of. reflexivity.
  - apply (proj1 (proj2 (off_policy_forces_single_env example_lib
                    (example_args_for "ppo" None)))).
    intros Hin. apply py_in_elem_of in Hin. discriminate Hin.
  - apply (proj2 (proj2 (proj2 (proj2
             (off_policy_forces_single_env example_lib example_args))))
             (world_of example_fs) example_kwargs_effective
             (example_kwargs_load None)).
Defined.

Lemma main_loads_with_dummy_buffer_witness :
  model_kwargs (loaded_model example_lib (example_args_for "sac" None)) =
  [("seed", 0%Z); ("buffer_size", 1%Z)].
Proof.
  apply (proj1 (proj2 (proj2
           (proj1 (main_loads_with_dummy_buffer example_lib
                     (example_args_for "sac" None))
              example_fs example_env
              (loaded_model example_lib (example_args_for "sac" None))
              ltac:(apply (list_elem_of_lookup_2 _ 3); vm_compute; reflexivity))))).
  apply py_in_elem_of. reflexivity.
Defined.

Lemma main_rejects_organization_with_slash_witness :
  (∃ e, (run (main example_lib example_args_nested) example_fs example_env).1 =
        Raise e) ∧
  Forall (fun c => ¬ is_hub_call c)
    (calls (run (main example_lib example_args_nested) example_fs example_env).2).
Proof.
  destruct (main_rejects_organization_with_slash example_lib example_args_nested
              example_fs example_env) as [Hnot Hcalls].
  { vm_compute. discriminate. }
  split.
  - destruct (run (main example_lib example_args_nested) example_fs example_env).1
      as [url | e]; [now destruct (Hnot url) | eauto].
  - apply Forall_forall. exact Hcalls.
Defined.

Lemma main_sets_threads_when_positive_witness :
  SetNumThreads 2
    ∈ calls (run (main example_lib example_args_threads) example_fs example_env).2 ∧
  SetNumThreads (-1)
    ∉ calls (run (main example_lib example_args) example_fs example_env).2.
Proof.
  split.
  - apply (proj2 (main_sets_threads_when_positive example_lib
                    example_args_threads example_fs example_env 2)).
    split; [reflexivity | lia].
  - intros Hin.
    apply (proj1 (main_sets_threads_when_positive example_lib example_args
                    example_fs example_env (-1))) in Hin.
    destruct Hin as [_ Hpos]. lia.
Defined.
